(** * amouse: a USB to serial mouse adaptor (Linux front end)

    Shallow embedding of [src/linux/src/amouse.c], [include/serial.c] and
    [include/utils.c], and the properties of the packet encoder, the flush
    logic, the identification routine, the control-line query, the option
    parser and the timestamp arithmetic.

    Conventions.  A C [int] is a [Z] and every arithmetic operation that can
    leave the 32-bit range is followed by [wrap_int]; [time_t] and [long] are
    64-bit and go through [wrap_long]; a [uint8_t] store is [to_uint8].
    Everything the program reads from its environment (clock readings, the
    modem-line register, input events, the sequence of values returned by
    getopt) is an explicit argument of the function that reads it, and
    everything it writes (serial bytes, the output of the option parser) is
    part of the result.  The progress and debug messages of the main loop
    and the failure messages of the ioctl wrappers are left out: they change
    neither the state nor the serial line. *)

From Stdlib Require Import ZArith Lia Bool Ascii String.
From stdpp Require Import base list strings.

Local Open Scope Z_scope.

(** ** Machine integers *)

Definition wrap_int (z : Z) : Z := (z + 2 ^ 31) mod 2 ^ 32 - 2 ^ 31.
Definition wrap_long (z : Z) : Z := (z + 2 ^ 63) mod 2 ^ 64 - 2 ^ 63.
Definition to_uint8 (z : Z) : Z := z mod 2 ^ 8.
Definition to_uint32 (z : Z) : Z := z mod 2 ^ 32.

(** The truth value of a C scalar used as a condition. *)
Definition truthy (z : Z) : bool := negb (z =? 0).

(** ** include/utils.c *)

Definition clamp (value min max : Z) : Z :=
  if max <? value then max
  else if value <? min then min
  else value.

(** [byte_to_bitstring val]: [buffer] is the content of the static array
    [char buffer[9]] when the function is entered; the result is its content
    when the function returns, which is what the returned pointer shows.
    The loop runs for [i] = 0 .. 7 and stores the character of bit [i] at
    index [7 - i]; [n] counts the iterations left. *)
Fixpoint bitstring_loop (n : nat) (i : Z) (val : Z) (buffer : list Z) : list Z :=
  match n with
  | O => buffer
  | S n' =>
      bitstring_loop n' (i + 1) val
        (<[Z.to_nat (7 - i) := 0x30 + Z.land (Z.shiftr val i) 1]> buffer)
  end.

Definition byte_to_bitstring (buffer : list Z) (val : Z) : list Z :=
  bitstring_loop 8 0 (to_uint8 val) buffer.

(** The static array before the first call: storage of static duration is
    zeroed. *)
Definition static_buffer : list Z := replicate 9 0.

(** The C string held by an array: the bytes before the first zero. *)
Fixpoint c_string (a : list Z) : list Z :=
  match a with
  | [] => []
  | c :: rest => if c =? 0 then [] else c :: c_string rest
  end.

(** ** include/serial.c *)

(** Modelled from the spec: [NS_FULL_SECOND] is defined in the header
    serial.h, which is not part of the sources at hand; the spec calls it
    "one full second" of the nanosecond field. *)
Definition NS_FULL_SECOND : Z := 1000000000.

Record timespec : Type := mk_timespec { tv_sec : Z; tv_nsec : Z }.

Definition timespec_diff (ts1 ts2 : timespec) : timespec :=
  let sec := wrap_long (tv_sec ts1 - tv_sec ts2) in
  let nsec := wrap_long (tv_nsec ts1 - tv_nsec ts2) in
  if nsec <? 0
  then mk_timespec (wrap_long (sec - 1)) (wrap_long (nsec + NS_FULL_SECOND))
  else mk_timespec sec nsec.

(** [get_target_time delay]: [time] is the value clock_gettime stores. *)
Definition get_target_time (delay : Z) (time : timespec) : timespec :=
  let now_nsec := to_uint32 (tv_nsec time) in
  let nsec := Z.rem (wrap_long (tv_nsec time + to_uint32 delay)) NS_FULL_SECOND in
  if nsec <? now_nsec
  then mk_timespec (wrap_long (tv_sec time + 1)) nsec
  else mk_timespec (tv_sec time) nsec.

(** A timestamp as clock_gettime returns it: the nanosecond field below one
    second, and seconds far enough from the ends of the 64-bit range for
    the subtraction not to wrap. *)
Definition normalized (ts : timespec) : Prop :=
  0 <= tv_nsec ts < 10 ^ 9 /\ - 2 ^ 62 <= tv_sec ts < 2 ^ 62.

(** Modem-line bits of the Linux tty interface (asm-generic/termios.h). *)
Definition TIOCM_DTR : Z := 0x002.
Definition TIOCM_RTS : Z := 0x004.
Definition TIOCM_CTS : Z := 0x020.
Definition TIOCM_DSR : Z := 0x100.

(** [uint8_t pkt_intellimouse_intro[] = "\x4D\x5A"]: an array initialised
    from a string literal without a length also holds the terminating zero
    byte, so the array has three elements. *)
Definition pkt_intellimouse_intro : list Z := [0x4D; 0x5A; 0x00].

(** [sizeof] of an array of [uint8_t]. *)
Definition sizeof (a : list Z) : Z := Z.of_nat (length a).

(** The loop of [serial_write]: [n] iterations left, next index [i]; each
    iteration writes the single byte [buffer[i]]. A read past the end of the
    array has no defined value; the model writes nothing more from there. *)
Fixpoint write_loop (buffer : list Z) (n i : nat) : list Z :=
  match n with
  | O => []
  | S n' =>
      match buffer !! i with
      | Some b => b :: write_loop buffer n' (S i)
      | None => []
      end
  end.

(** [serial_write fd buffer size]: the bytes put on the line, in order, and
    the returned count. *)
Definition serial_write (buffer : list Z) (size : Z) : list Z * Z :=
  (write_loop buffer (Z.to_nat size) 0, Z.max 0 size).

(** [get_pin fd flag]: [ioctl_result] is [None] when the TIOCMGET ioctl
    fails, otherwise the register value it stores in [serial_state].  (The
    failure message printed on the terminal is left out.) *)
Definition get_pin (ioctl_result : option Z) (flag : Z) : Z :=
  match ioctl_result with
  | None => -1
  | Some serial_state => if truthy (Z.land serial_state flag) then 1 else 0
  end.

(** [wait_pin_state fd flag desired_state]: [reads] are the results of the
    successive TIOCMGET queries.  Returns the readings left once the loop is
    over, [None] while the loop is still polling at the end of [reads]. *)
Fixpoint wait_pin_loop (reads : list (option Z)) (flag desired_state : Z)
  : option (list (option Z)) :=
  match reads with
  | [] => None
  | r :: rest =>
      if get_pin r flag =? desired_state then Some rest
      else wait_pin_loop rest flag desired_state
  end.

Definition wait_pin_state (reads : list (option Z)) (flag desired_state : Z)
  : option (list (option Z)) :=
  if -1 =? desired_state then Some reads      (* pin_state starts at -1 *)
  else wait_pin_loop reads flag desired_state.

(** [mouse_ident fd wheel_enabled immediate]: the bytes written to the
    serial line and the readings left, [None] while it is still waiting. *)
Definition mouse_ident (reads : list (option Z)) (wheel_enabled immediate : Z)
  : option (list Z * list (option Z)) :=
  let send (rest : list (option Z)) :=
    if truthy wheel_enabled
    then (fst (serial_write pkt_intellimouse_intro (sizeof pkt_intellimouse_intro)), rest)
    else (fst (serial_write pkt_intellimouse_intro 1), rest) in
  if truthy immediate then Some (send reads)
  else
    match wait_pin_state reads (Z.lor TIOCM_CTS TIOCM_DSR) 0 with
    | None => None
    | Some reads1 =>
        match wait_pin_state reads1 TIOCM_CTS 1 with
        | None => None
        | Some reads2 => Some (send reads2)
        end
    end.

(** [struct termios] and the flag bits and indices of the Linux tty
    interface that [setup_tty] names (asm-generic/termbits.h). *)
Record termios : Type := mk_termios {
  c_iflag : Z; c_oflag : Z; c_cflag : Z; c_lflag : Z;
  c_cc : list Z
}.

Definition CSIZE : Z := 0x30.
Definition CS7 : Z := 0x20.
Definition CSTOPB : Z := 0x40.
Definition CREAD : Z := 0x80.
Definition PARENB : Z := 0x100.
Definition CLOCAL : Z := 0x800.
Definition CRTSCTS : Z := 0x80000000.
Definition VTIME : nat := 5.
Definition VMIN : nat := 6.

(** [setup_tty fd baudrate], lines 81-96 of serial.c: [tty] is the structure
    as tcgetattr, cfsetospeed, cfsetispeed and cfmakeraw of the C library
    leave it, [tcsetattr_result] what tcsetattr returns.  The result is the
    structure handed to tcsetattr and the value returned.  The operations on
    [c_cflag] only clear bits or set bits below 2^12, so they stay within
    the 32 bits of a [tcflag_t]. *)
Definition setup_tty (tty : termios) (tcsetattr_result : Z) : termios * Z :=
  let c := c_cflag tty in
  let c := Z.land c (Z.lnot PARENB) in
  let c := Z.land c (Z.lnot CSTOPB) in
  let c := Z.land c (Z.lnot CSIZE) in
  let c := Z.lor c CS7 in
  let c := Z.land c (Z.lnot CRTSCTS) in
  let cc := <[VMIN := 1]> (c_cc tty) in
  let cc := <[VTIME := 5]> cc in
  let c := Z.lor c (Z.lor CREAD CLOCAL) in
  (mk_termios (c_iflag tty) (c_oflag tty) c (c_lflag tty) cc,
   if truthy tcsetattr_result then -1 else 0).

(** ** amouse.c: data *)

(** [struct opts]; a [char *] that may be NULL is an [option string]. *)
Module options.
Record opts : Type := mk {
    mousepath : option string;
    serialpath : option string;
    wheel : Z;
    exclusive : Z;
    immediate : Z;
    debug : Z
  }.

Definition set_mousepath (v : option string) (o : opts) : opts :=
    mk v (serialpath o) (wheel o) (exclusive o) (immediate o) (debug o).
Definition set_serialpath (v : option string) (o : opts) : opts :=
    mk (mousepath o) v (wheel o) (exclusive o) (immediate o) (debug o).
Definition set_wheel (v : Z) (o : opts) : opts :=
    mk (mousepath o) (serialpath o) v (exclusive o) (immediate o) (debug o).
Definition set_exclusive (v : Z) (o : opts) : opts :=
    mk (mousepath o) (serialpath o) (wheel o) v (immediate o) (debug o).
Definition set_immediate (v : Z) (o : opts) : opts :=
    mk (mousepath o) (serialpath o) (wheel o) (exclusive o) v (debug o).
Definition set_debug (v : Z) (o : opts) : opts :=
    mk (mousepath o) (serialpath o) (wheel o) (exclusive o) (immediate o) v.

  (** [calloc(1, sizeof(struct opts))]: all fields zero. *)
Definition calloc : opts := mk None None 0 0 0 0.
End options.

(** [mouse_state_t]. *)
Module mouse.
Record mouse_state_t : Type := mk {
    pc_state : Z;
    state : list Z;           (* uint8_t state[4] *)
    x : Z; y : Z; wheel : Z;
    update : Z;
    lmb : Z; rmb : Z; mmb : Z; force_update : Z
  }.

Definition set_state (v : list Z) (m : mouse_state_t) : mouse_state_t :=
    mk (pc_state m) v (x m) (y m) (wheel m) (update m) (lmb m) (rmb m) (mmb m) (force_update m).
Definition set_x (v : Z) (m : mouse_state_t) : mouse_state_t :=
    mk (pc_state m) (state m) v (y m) (wheel m) (update m) (lmb m) (rmb m) (mmb m) (force_update m).
Definition set_y (v : Z) (m : mouse_state_t) : mouse_state_t :=
    mk (pc_state m) (state m) (x m) v (wheel m) (update m) (lmb m) (rmb m) (mmb m) (force_update m).
Definition set_wheel (v : Z) (m : mouse_state_t) : mouse_state_t :=
    mk (pc_state m) (state m) (x m) (y m) v (update m) (lmb m) (rmb m) (mmb m) (force_update m).
Definition set_update (v : Z) (m : mouse_state_t) : mouse_state_t :=
    mk (pc_state m) (state m) (x m) (y m) (wheel m) v (lmb m) (rmb m) (mmb m) (force_update m).
Definition set_lmb (v : Z) (m : mouse_state_t) : mouse_state_t :=
    mk (pc_state m) (state m) (x m) (y m) (wheel m) (update m) v (rmb m) (mmb m) (force_update m).
Definition set_rmb (v : Z) (m : mouse_state_t) : mouse_state_t :=
    mk (pc_state m) (state m) (x m) (y m) (wheel m) (update m) (lmb m) v (mmb m) (force_update m).
Definition set_mmb (v : Z) (m : mouse_state_t) : mouse_state_t :=
    mk (pc_state m) (state m) (x m) (y m) (wheel m) (update m) (lmb m) (rmb m) v (force_update m).
Definition set_force_update (v : Z) (m : mouse_state_t) : mouse_state_t :=
    mk (pc_state m) (state m) (x m) (y m) (wheel m) (update m) (lmb m) (rmb m) (mmb m) v.
End mouse.

(** [struct input_event] of the Linux input layer, and the event types and
    codes the program looks at (linux/input-event-codes.h). *)
Module ev.
Record input_event : Type := mk { type : Z; code : Z; value : Z }.
End ev.

Definition EV_KEY : Z := 0x01.
Definition EV_REL : Z := 0x02.
Definition BTN_LEFT : Z := 0x110.
Definition BTN_RIGHT : Z := 0x111.
Definition BTN_MIDDLE : Z := 0x112.
Definition REL_X : Z := 0x00.
Definition REL_Y : Z := 0x01.
Definition REL_WHEEL : Z := 0x08.

(** [uint8_t init_mouse_state[] = "\x40\x00\x00\x00"]: four bytes and the
    terminating zero of the literal. *)
Definition init_mouse_state : list Z := [0x40; 0x00; 0x00; 0x00; 0x00].

(** [memcpy(mouse.state, init_mouse_state, sizeof(mouse.state))], with
    [sizeof(mouse.state) = 4]. *)
Definition memcpy_state (m : mouse.mouse_state_t) : mouse.mouse_state_t :=
  mouse.set_state (take 4 init_mouse_state) m.

(** ** amouse.c: command line *)

(** What the program prints: the stream and the text.  [Title] and [Usage]
    stand for the two [printf] calls of [showhelp] (the banner, and the usage
    text built from the version macros and [argv[0]]); a [Line] is given
    without its final newline.  What getopt itself prints about an option it
    does not know is not part of the program and is left out. *)
Inductive stream : Type := Stdout | Stderr.

Inductive text : Type :=
| Title
| Usage (argv0 : string)
| Line (s : string).

Definition showhelp (argv0 : string) : list (stream * text) :=
  [(Stdout, Title); (Stdout, Usage argv0)].

(** One return of [getopt(argc, argv, "hm:s:weid")] other than -1: the
    option character (['?'] for an option it does not know) and [optarg]. *)
Record getopt_result : Type := mk_getopt { opt : ascii; optarg : option string }.

(** [strndup(s, n)]: the first [n] characters at most; NULL stays NULL. *)
Definition strndup (s : option string) (n : nat) : option string :=
  match s with
  | Some s => Some (String.substring 0 n s)
  | None => None
  end.

(** How a function that may call [exit] ends. *)
Inductive outcome (A : Type) : Type :=
| Exit (status : Z) (out : list (stream * text))
| Return (a : A) (out : list (stream * text)).
Arguments Exit {A} status out.
Arguments Return {A} a out.

(** The [while] loop of [parse_opts], lines 77-108, over the successive
    returns of getopt; [out] is what has been printed so far. *)
Fixpoint parse_opts_loop (argv0 : string) (gs : list getopt_result)
    (o : options.opts) (out : list (stream * text)) : outcome options.opts :=
  match gs with
  | [] => Return o out
  | g :: rest =>
      (* Defaults *)
      let o := options.set_wheel 1 o in
      let o := options.set_exclusive 1 o in
      if Ascii.eqb (opt g) "m" then
        parse_opts_loop argv0 rest (options.set_mousepath (strndup (optarg g) 4096) o) out
      else if Ascii.eqb (opt g) "s" then
        parse_opts_loop argv0 rest (options.set_serialpath (strndup (optarg g) 4096) o) out
      else if Ascii.eqb (opt g) "h" then
        Exit 0 (out ++ showhelp argv0)
      else if Ascii.eqb (opt g) "w" then
        parse_opts_loop argv0 rest (options.set_wheel 0 o) out
      else if Ascii.eqb (opt g) "e" then
        parse_opts_loop argv0 rest (options.set_exclusive 0 o) out
      else if Ascii.eqb (opt g) "i" then
        parse_opts_loop argv0 rest (options.set_immediate 1 o) out
      else if Ascii.eqb (opt g) "d" then
        parse_opts_loop argv0 rest (options.set_debug 1 o) out
      else
        parse_opts_loop argv0 rest o
          (out ++ [(Stderr, Line "Invalid option on commandline, ignoring.")])
  end.

(** The options the [switch] of [parse_opts] has a case for, and what its
    [default] case prints for any other. *)
Definition known_option (c : ascii) : bool :=
  existsb (Ascii.eqb c) ["m"; "s"; "h"; "w"; "e"; "i"; "d"]%char.

Definition invalid_option_line : stream * text :=
  (Stderr, Line "Invalid option on commandline, ignoring.").


Definition need_mousepath : string :=
  "You must define a path with -m to your mouse /dev/input/* file.".
Definition need_serialpath : string :=
  "You must define a path with -s to your serial port /dev/tty* file.".

(** Lines 110-118: the check of the two required paths. *)
Definition check_paths (o : options.opts) (out : list (stream * text))
  : outcome options.opts :=
  let quit := 0 in
  let '(quit, out) :=
    match options.mousepath o with
    | None => (1, out ++ [(Stderr, Line need_mousepath)])
    | Some _ => (quit, out)
    end in
  let '(quit, out) :=
    match options.serialpath o with
    | None => (1, out ++ [(Stderr, Line need_serialpath)])
    | Some _ => (quit, out)
    end in
  if truthy quit then Exit 0 out else Return o out.

(** What [check_paths] adds to the output. *)
Definition missing_path_messages (o : options.opts) : list (stream * text) :=
  match options.mousepath o with
  | None => [(Stderr, Line need_mousepath)]
  | Some _ => []
  end ++
  match options.serialpath o with
  | None => [(Stderr, Line need_serialpath)]
  | Some _ => []
  end.

Definition parse_opts (argv0 : string) (gs : list getopt_result) (o : options.opts)
  : outcome options.opts :=
  match parse_opts_loop argv0 gs o [] with
  | Exit status out => Exit status out
  | Return o out => check_paths o out
  end.

(** Lines 171-177 of [main]: [Return o _] is the only way on to the opening
    of the devices and the main loop. *)
Definition main_startup (argc : Z) (argv0 : string) (gs : list getopt_result)
  : outcome options.opts :=
  if argc <? 2 then Exit 0 (showhelp argv0)
  else parse_opts argv0 gs options.calloc.

(** ** amouse.c: the input device *)

(** What [open_usbinput] does to the descriptor it opened. *)
Inductive usb_action : Type :=
| Report (code : Z)      (* the message on the error stream, with -returncode *)
| Free                   (* libevdev_free *)
| Grab                   (* ioctl(fd, EVIOCGRAB, 1) *)
| Close.                 (* close(fd) *)

(** [open_usbinput device exclusive]: [fd] is the result of open,
    [new_from_fd] that of libevdev_new_from_fd, and the six [has_...] values
    are what the capability queries of lines 138-143 answer, in that order.
    The result is the returned value and the actions taken, in order. *)
Definition open_usbinput (fd new_from_fd : Z)
    (has_rel has_x has_y has_left has_middle has_right : Z) (exclusive : Z)
  : Z * list usb_action :=
  if fd <? 0 then (-1, [])
  else if new_from_fd <? 0 then (-1, [Report (- new_from_fd)])
  else
    let returncode :=
      truthy has_rel && truthy has_x && truthy has_y
      && truthy has_left && truthy has_middle && truthy has_right in
    if returncode then
      if truthy exclusive then (fd, [Free; Grab]) else (fd, [Free])
    else (-1, [Free; Close]).

(** ** amouse.c: flow control *)

Definition push_update (m : mouse.mouse_state_t) (full_packet : Z) : mouse.mouse_state_t :=
  if truthy full_packet || (mouse.update m =? 3)
  then mouse.set_update 3 m
  else mouse.set_update 2 m.

(** Lines 269-311 of [main]: the dispatch on one input event;
    [wheel_opt] is [options->wheel]. *)
Definition handle_event (wheel_opt : Z) (m : mouse.mouse_state_t) (e : ev.input_event)
  : mouse.mouse_state_t :=
  if ev.type e =? EV_KEY then
    if ev.code e =? BTN_LEFT then
      let m := mouse.set_lmb (ev.value e) m in
      let m := mouse.set_force_update 1 m in
      push_update m (mouse.mmb m)
    else if ev.code e =? BTN_RIGHT then
      let m := mouse.set_rmb (ev.value e) m in
      let m := mouse.set_force_update 1 m in
      push_update m (mouse.mmb m)
    else if ev.code e =? BTN_MIDDLE then
      if truthy wheel_opt then
        let m := mouse.set_mmb (ev.value e) m in
        let m := mouse.set_force_update 1 m in
        push_update m 1
      else m
    else m
  else if ev.type e =? EV_REL then
    let m :=
      if ev.code e =? REL_X then
        let m := mouse.set_x (wrap_int (mouse.x m + ev.value e)) m in
        mouse.set_x (clamp (mouse.x m) (-127) 127) m
      else if ev.code e =? REL_Y then
        let m := mouse.set_y (wrap_int (mouse.y m + ev.value e)) m in
        mouse.set_y (clamp (mouse.y m) (-127) 127) m
      else if ev.code e =? REL_WHEEL then
        if truthy wheel_opt then
          let m := mouse.set_wheel (wrap_int (mouse.wheel m + ev.value e)) m in
          let m := mouse.set_wheel (clamp (mouse.wheel m) (-15) 15) m in
          push_update m 1
        else m
      else m in
    push_update m (mouse.mmb m)
  else m.

(** [state[i] |= v]: the old byte is promoted to [int], or-ed with [v] and
    stored back as a [uint8_t]. *)
Definition or_into (i : nat) (v : Z) (s : list Z) : list Z :=
  <[i := to_uint8 (Z.lor (s !!! i) v)]> s.

(** What one pass of the main loop reads from its environment. *)
Record iteration_input : Type := mk_input {
  pin : option Z;               (* TIOCMGET result of the get_pin call of line 246 *)
  ident_pins : list (option Z); (* the following TIOCMGET results, read by mouse_ident *)
  event : option ev.input_event;(* libevdev_next_event: an event, or none available *)
  clock_now : timespec;         (* clock_gettime of line 314 *)
  clock_target : timespec       (* clock_gettime inside get_target_time *)
}.

(** What is put on the serial line, by whom. *)
Inductive transmission : Type :=
| Ident (bytes : list Z)
| Packet (bytes : list Z).

(** The state between two passes of the loop once it has been through a
    flush: the buffer at its template, no forced update, the accumulators
    within their clamps. *)
Definition at_rest (m : mouse.mouse_state_t) : Prop :=
  mouse.state m = [0x40; 0x00; 0x00; 0x00]
  /\ mouse.force_update m = 0
  /\ -127 <= mouse.x m <= 127
  /\ -127 <= mouse.y m <= 127
  /\ -15 <= mouse.wheel m <= 15.

(** What a receiver of the serial line relies on: a packet has three or
    four bytes, its first byte is the only one of the first three with bit 6
    set, and an identification is one of the two announcements. *)
Definition well_framed (t : transmission) : Prop :=
  match t with
  | Packet bytes =>
      exists b0 b1 b2 tail,
        bytes = b0 :: b1 :: b2 :: tail
        /\ (tail = [] \/ exists b3, tail = [b3])
        /\ Z.testbit b0 6 = true /\ 0 <= b0 < 256
        /\ 0 <= b1 < 64 /\ 0 <= b2 < 64
  | Ident bytes => bytes = [0x4D; 0x5A; 0x00] \/ bytes = [0x4D]
  end.

Section Protocol.
  (** The bit positions of the buttons and the two send intervals are macros
      of the header serial.h, which is not part of the sources at hand; the
      development is parametric in them. *)
Variables MOUSE_LMB_BIT MOUSE_RMB_BIT MOUSE_MMB_BIT : Z.
Variables SERIALDELAY_3B SERIALDELAY_4B : Z.

  (** Lines 320-333: the packet is built in [mouse.state]. *)
Definition encode (m : mouse.mouse_state_t) : mouse.mouse_state_t :=
    let s := mouse.state m in
    let s := or_into 0 (wrap_int (Z.shiftl (mouse.lmb m) MOUSE_LMB_BIT)) s in
    let s := or_into 0 (wrap_int (Z.shiftl (mouse.rmb m) MOUSE_RMB_BIT)) s in
    let s := or_into 3 (wrap_int (Z.shiftl (mouse.mmb m) MOUSE_MMB_BIT)) s in
    let movement := Z.land (mouse.x m) 0xc0 in
    let s := or_into 0 (Z.shiftr movement 6) s in
    let s := or_into 1 (Z.land (mouse.x m) 0x3f) s in
    let movement := Z.land (mouse.y m) 0xc0 in
    let s := or_into 0 (Z.shiftr movement 4) s in
    let s := or_into 2 (Z.land (mouse.y m) 0x3f) s in
    let s := or_into 3 (Z.land (wrap_int (- mouse.wheel m)) 0x0f) s in
    mouse.set_state s m.

  (** Lines 336-343: [for(i=0; i <= mouse.update; i++) write(fd, &mouse.state[i], 1)]. *)
Definition send_updates (m : mouse.mouse_state_t) : list Z :=
    write_loop (mouse.state m) (Z.to_nat (mouse.update m + 1)) 0.

  (** Lines 347-353: the new deadline and the reset of the transient state. *)
Definition next_target (m : mouse.mouse_state_t) (clock : timespec) : timespec :=
    if truthy (mouse.mmb m) then get_target_time SERIALDELAY_4B clock
    else get_target_time SERIALDELAY_3B clock.

Definition reset_after_send (m : mouse.mouse_state_t) : mouse.mouse_state_t :=
    let m := mouse.set_update (-1) m in
    let m := mouse.set_force_update 0 m in
    let m := mouse.set_wheel 0 m in
    let m := mouse.set_y 0 m in
    let m := mouse.set_x 0 m in
    memcpy_state m.

  (** The body of the [if] of line 317: encode, transmit, re-arm, reset. *)
Definition flush (m : mouse.mouse_state_t) (clock : timespec)
    : mouse.mouse_state_t * timespec * list Z :=
    let m := encode m in
    (reset_after_send m, next_target m clock, send_updates m).

  (** The condition of line 317. *)
Definition flush_due (m : mouse.mouse_state_t) (time_diff : timespec) : bool :=
    ((tv_sec time_diff <? 0) && (-1 <? mouse.update m)) || truthy (mouse.force_update m).

  (** Lines 266-357 when libevdev delivers the event [e]: the new state, the
      deadline, and the packet bytes when a flush took place. *)
Definition process_event (wheel_opt : Z) (m : mouse.mouse_state_t)
      (time_target : timespec) (e : ev.input_event) (now clock : timespec)
    : mouse.mouse_state_t * timespec * option (list Z) :=
    let m := handle_event wheel_opt m e in
    let time_diff := timespec_diff time_target now in
    if flush_due m time_diff then
      let '(m', target', sent) := flush m clock in (m', target', Some sent)
    else (m, time_target, None).

  (** One pass of [while(1)], lines 241-358.  [None]: the pass is still
      polling the control lines inside [mouse_ident] at the end of the
      readings. *)
Definition loop_iteration (o : options.opts) (m : mouse.mouse_state_t)
      (time_target : timespec) (i : iteration_input)
    : option (mouse.mouse_state_t * timespec * list transmission) :=
    let m := mouse.set_update (-1) m in
    let ident :=
      if (get_pin (pin i) (Z.lor TIOCM_CTS TIOCM_DSR) =? 0)
         && negb (truthy (options.immediate o))
      then
        match mouse_ident (ident_pins i) (options.wheel o) (options.immediate o) with
        | Some (bytes, _) => Some [Ident bytes]
        | None => None
        end
      else Some [] in
    match ident with
    | None => None
    | Some tr =>
        match event i with
        | None => Some (m, time_target, tr)
        | Some e =>
            let '(m', target', sent) :=
              process_event (options.wheel o) m time_target e (clock_now i) (clock_target i) in
            Some (m', target',
                  tr ++ match sent with Some bytes => [Packet bytes] | None => [] end)
        end
    end.

  (** Successive passes of the loop. *)
Fixpoint run (o : options.opts) (m : mouse.mouse_state_t) (time_target : timespec)
      (inputs : list iteration_input)
    : option (mouse.mouse_state_t * timespec * list transmission) :=
    match inputs with
    | [] => Some (m, time_target, [])
    | i :: rest =>
        match loop_iteration o m time_target i with
        | None => None
        | Some (m', target', tr) =>
            match run o m' target' rest with
            | None => None
            | Some (m'', target'', tr') => Some (m'', target'', tr ++ tr')
            end
        end
    end.

  (** ** Properties *)

  (** *** Machine integers *)

Lemma wrap_int_small (z : Z) : - 2 ^ 31 <= z < 2 ^ 31 -> wrap_int z = z.
Proof. unfold wrap_int. intros H. rewrite Z.mod_small; lia. Qed.

Lemma wrap_long_small (z : Z) : - 2 ^ 63 <= z < 2 ^ 63 -> wrap_long z = z.
Proof. unfold wrap_long. intros H. rewrite Z.mod_small; lia. Qed.

Lemma to_uint8_land (z : Z) : to_uint8 z = Z.land z 255.
Proof. unfold to_uint8. change 255 with (Z.ones 8). now rewrite Z.land_ones by lia. Qed.

Lemma to_uint8_wrap_int (z : Z) : to_uint8 (wrap_int z) = to_uint8 z.
Proof.
  assert (E : wrap_int z = z + (- ((z + 2 ^ 31) / 2 ^ 32) * 2 ^ 24) * 2 ^ 8).
  { unfold wrap_int. pose proof (Z.div_mod (z + 2 ^ 31) (2 ^ 32)). lia. }
  rewrite E. unfold to_uint8. apply Z.mod_add. lia.
Qed.

Lemma to_uint8_lor (a b : Z) : to_uint8 (Z.lor a b) = Z.lor (to_uint8 a) (to_uint8 b).
Proof. rewrite !to_uint8_land. apply Z.land_lor_distr_l. Qed.

Lemma to_uint8_idem (z : Z) : to_uint8 (to_uint8 z) = to_uint8 z.
Proof. unfold to_uint8. apply Z.mod_mod. lia. Qed.

Lemma to_uint8_small (z : Z) : 0 <= z < 256 -> to_uint8 z = z.
Proof. unfold to_uint8. intros. apply Z.mod_small. lia. Qed.

(** The effect of [state[i] |= v] on a byte that is already a [uint8_t]. *)
Lemma or_byte (s v : Z) :
  to_uint8 (Z.lor (to_uint8 s) v) = Z.lor (to_uint8 s) (to_uint8 v).
Proof. now rewrite to_uint8_lor, to_uint8_idem. Qed.

  (** *** include/utils.c *)

Lemma clamp_range (v lo hi : Z) : lo <= hi -> lo <= clamp v lo hi <= hi.
Proof. unfold clamp. intros. destruct (Z.ltb_spec hi v), (Z.ltb_spec v lo); lia. Qed.

Lemma clamp_id (v lo hi : Z) : lo <= v <= hi -> clamp v lo hi = v.
Proof. unfold clamp. intros. destruct (Z.ltb_spec hi v), (Z.ltb_spec v lo); lia. Qed.

  (** *** include/serial.c: timestamps *)

(** C9. For two normalized timestamps, [timespec_diff] returns a nanosecond
    field in [0, 10^9), takes one second off exactly when the raw nanosecond
    difference is negative, and seconds * 10^9 + nanoseconds of the result is
    the exact signed difference of the two instants. *)
Theorem timespec_diff_exact (ts1 ts2 : timespec) :
  normalized ts1 -> normalized ts2 ->
  let r := timespec_diff ts1 ts2 in
  0 <= tv_nsec r < 10 ^ 9
  /\ tv_sec r = tv_sec ts1 - tv_sec ts2 - (if tv_nsec ts1 - tv_nsec ts2 <? 0 then 1 else 0)
  /\ tv_sec r * 10 ^ 9 + tv_nsec r
     = (tv_sec ts1 * 10 ^ 9 + tv_nsec ts1) - (tv_sec ts2 * 10 ^ 9 + tv_nsec ts2).
Proof.
  intros [Hn1 Hs1] [Hn2 Hs2]. unfold timespec_diff, NS_FULL_SECOND.
  rewrite (wrap_long_small (tv_sec ts1 - tv_sec ts2)) by lia.
  rewrite (wrap_long_small (tv_nsec ts1 - tv_nsec ts2)) by lia.
  destruct (Z.ltb_spec (tv_nsec ts1 - tv_nsec ts2) 0) as [Hneg | Hpos]; cbn [tv_sec tv_nsec].
  - rewrite !wrap_long_small by lia. lia.
  - lia.
Qed.

  (** *** Bit-level facts used by the encoder *)

Ltac bits_step :=
  first [ rewrite Z.land_spec | rewrite Z.lor_spec
        | rewrite Z.shiftr_spec by lia | rewrite Z.shiftl_spec by lia
        | rewrite Z.testbit_ones by lia | rewrite Z.testbit_mod_pow2 by lia
        | rewrite Z.div_pow2_bits by lia | rewrite Z.mul_pow2_bits by lia
        | rewrite Z.bits_0 ].

Ltac bits i Hi := apply Z.bits_inj'; intros i Hi; repeat bits_step.

(** A value shifted left by [L] has its [k] lowest bits clear, [k <= L]. *)
Lemma shiftl_low_bits (v L k : Z) :
  0 <= k <= L -> Z.land (Z.shiftl v L) (Z.ones k) = 0.
Proof.
  intros H. bits i Hi.
  destruct (Z.ltb_spec i k), (Z.leb_spec 0 i); cbn;
    rewrite ?andb_false_r; try reflexivity; try lia.
  rewrite Z.testbit_neg_r by lia. reflexivity.
Qed.

(** [(x & 0xc0) >> 6] is the two top bits of [x] as an 8-bit value. *)
Lemma x_top_bits (v : Z) : Z.shiftr (Z.land v 0xc0) 6 = (v mod 2 ^ 8) / 2 ^ 6.
Proof.
  change 0xc0 with (Z.shiftl (Z.ones 2) 6).
  bits i Hi.
  replace (i + 6 - 6) with i by lia.
  destruct (Z.ltb_spec i 2), (Z.leb_spec 0 i), (Z.ltb_spec (i + 6) 8); cbn;
    rewrite ?andb_false_r, ?andb_true_r; try reflexivity; lia.
Qed.

(** [(y & 0xc0) >> 4] is the same two bits, two places up. *)
Lemma y_top_bits (v : Z) : Z.shiftr (Z.land v 0xc0) 4 = (v mod 2 ^ 8) / 2 ^ 6 * 2 ^ 2.
Proof.
  change 0xc0 with (Z.shiftl (Z.ones 2) 6).
  bits i Hi.
  destruct (Z.lt_ge_cases i 2) as [Hlo | Hhi].
  - rewrite (Z.testbit_neg_r _ (i - 2)) by lia.
    destruct (Z.leb_spec 0 (i + 4 - 6)); [lia | now rewrite andb_false_r].
  - repeat bits_step. replace (i - 2 + 6) with (i + 4) by lia.
    destruct (Z.ltb_spec (i + 4 - 6) 2), (Z.leb_spec 0 (i + 4 - 6)), (Z.ltb_spec (i + 4) 8);
      cbn; rewrite ?andb_false_r, ?andb_true_r; try reflexivity; lia.
Qed.

Lemma top_bits_range (v : Z) : 0 <= (v mod 2 ^ 8) / 2 ^ 6 < 4.
Proof.
  pose proof (Z.mod_pos_bound v (2 ^ 8) ltac:(lia)).
  split; [apply Z.div_pos; lia | apply Z.div_lt_upper_bound; lia].
Qed.

Lemma low6_range (v : Z) : 0 <= Z.land v 0x3f < 64.
Proof.
  change 0x3f with (Z.ones 6). rewrite Z.land_ones by lia.
  apply Z.mod_pos_bound. lia.
Qed.

(** The low nibble does not see the 32-bit wrap. *)
Lemma nibble_wrap_int (z : Z) : Z.land (wrap_int z) 0x0f = Z.land z 0x0f.
Proof.
  change 0x0f with (Z.ones 4). rewrite !Z.land_ones by lia.
  assert (E : wrap_int z = z + (- ((z + 2 ^ 31) / 2 ^ 32) * 2 ^ 28) * 2 ^ 4).
  { unfold wrap_int. pose proof (Z.div_mod (z + 2 ^ 31) (2 ^ 32)). lia. }
  rewrite E. apply Z.mod_add. lia.
Qed.

Lemma nibble_to_uint8 (z : Z) : Z.land (to_uint8 z) 0x0f = Z.land z 0x0f.
Proof.
  rewrite to_uint8_land, <- Z.land_assoc. reflexivity.
Qed.

  (** *** The encoder *)

(** The four bytes [encode] leaves in the buffer, for any previous content. *)
Lemma encode_state (m : mouse.mouse_state_t) (s0 s1 s2 s3 : Z) :
  mouse.state m = [s0; s1; s2; s3] ->
  mouse.state (encode m) =
    [ to_uint8 (Z.lor (to_uint8 (Z.lor (to_uint8 (Z.lor (to_uint8 (Z.lor s0
         (wrap_int (Z.shiftl (mouse.lmb m) MOUSE_LMB_BIT))))
         (wrap_int (Z.shiftl (mouse.rmb m) MOUSE_RMB_BIT))))
         (Z.shiftr (Z.land (mouse.x m) 0xc0) 6)))
         (Z.shiftr (Z.land (mouse.y m) 0xc0) 4));
      to_uint8 (Z.lor s1 (Z.land (mouse.x m) 0x3f));
      to_uint8 (Z.lor s2 (Z.land (mouse.y m) 0x3f));
      to_uint8 (Z.lor (to_uint8 (Z.lor s3
         (wrap_int (Z.shiftl (mouse.mmb m) MOUSE_MMB_BIT))))
         (Z.land (wrap_int (- mouse.wheel m)) 0x0f)) ].
Proof. intros H. unfold encode, or_into. rewrite H. reflexivity. Qed.

(** [encode] touches the packet buffer only. *)
Lemma encode_frame (m : mouse.mouse_state_t) :
  let m' := encode m in
  mouse.x m' = mouse.x m /\ mouse.y m' = mouse.y m /\ mouse.wheel m' = mouse.wheel m
  /\ mouse.update m' = mouse.update m /\ mouse.lmb m' = mouse.lmb m
  /\ mouse.rmb m' = mouse.rmb m /\ mouse.mmb m' = mouse.mmb m
  /\ mouse.force_update m' = mouse.force_update m /\ mouse.pc_state m' = mouse.pc_state m.
Proof. cbv zeta. unfold encode. cbn. tauto. Qed.

(** C2. With the buffer at its template (0x40, 0, 0, 0) and the button bits
    placed above the four motion bits, the encoder leaves in byte 1 the low
    six bits of x, in byte 2 the low six bits of y, and in byte 0 the value
    0x40 or-ed with the button bits, with (x & 0xc0) >> 6 and with
    (y & 0xc0) >> 4; bits 1-0 of byte 0 are the two top bits of the 8-bit x
    and bits 3-2 the two top bits of the 8-bit y. *)
Theorem encode_motion_bytes (m : mouse.mouse_state_t) :
  mouse.state m = [0x40; 0x00; 0x00; 0x00] ->
  4 <= MOUSE_LMB_BIT -> 4 <= MOUSE_RMB_BIT ->
  let buttons :=
    to_uint8 (Z.lor (Z.shiftl (mouse.lmb m) MOUSE_LMB_BIT)
                    (Z.shiftl (mouse.rmb m) MOUSE_RMB_BIT)) in
  exists b0 b3 : Z,
    mouse.state (encode m)
      = [b0; Z.land (mouse.x m) 0x3f; Z.land (mouse.y m) 0x3f; b3]
    /\ b0 = Z.lor (Z.lor (Z.lor 0x40 buttons)
                         (Z.shiftr (Z.land (mouse.x m) 0xc0) 6))
                  (Z.shiftr (Z.land (mouse.y m) 0xc0) 4)
    /\ Z.land b0 0x03 = Z.shiftr (Z.land (mouse.x m) 0xc0) 6
    /\ Z.shiftr (Z.land b0 0x0c) 2 = Z.shiftr (Z.land (mouse.y m) 0xc0) 6
    /\ Z.shiftr (Z.land (mouse.x m) 0xc0) 6 = (mouse.x m mod 2 ^ 8) / 2 ^ 6
    /\ Z.shiftr (Z.land (mouse.y m) 0xc0) 6 = (mouse.y m mod 2 ^ 8) / 2 ^ 6.
Proof.
  intros Hst HL HR buttons.
  set (xt := Z.shiftr (Z.land (mouse.x m) 0xc0) 6).
  set (yt := Z.shiftr (Z.land (mouse.y m) 0xc0) 4).
  assert (Hxt : xt = (mouse.x m mod 2 ^ 8) / 2 ^ 6) by apply x_top_bits.
  assert (Hyt : yt = (mouse.y m mod 2 ^ 8) / 2 ^ 6 * 2 ^ 2) by apply y_top_bits.
  pose proof (top_bits_range (mouse.x m)) as Rx.
  pose proof (top_bits_range (mouse.y m)) as Ry.
  pose proof (low6_range (mouse.x m)) as Lx.
  pose proof (low6_range (mouse.y m)) as Ly.
  assert (Hb0 :
    to_uint8 (Z.lor (to_uint8 (Z.lor (to_uint8 (Z.lor (to_uint8 (Z.lor 0x40
         (wrap_int (Z.shiftl (mouse.lmb m) MOUSE_LMB_BIT))))
         (wrap_int (Z.shiftl (mouse.rmb m) MOUSE_RMB_BIT)))) xt)) yt)
    = Z.lor (Z.lor (Z.lor 0x40 buttons) xt) yt).
  { rewrite !or_byte. rewrite to_uint8_lor, !to_uint8_wrap_int.
    rewrite (to_uint8_small 0x40), (to_uint8_small xt), (to_uint8_small yt) by lia.
    subst buttons. rewrite to_uint8_lor, Z.lor_assoc. reflexivity. }
  eexists _, _. split; [| split; [reflexivity |]].
  - rewrite (encode_state m _ _ _ _ Hst). fold xt yt. rewrite Hb0, !Z.lor_0_l.
    rewrite !to_uint8_small by lia. reflexivity.
  - assert (Hbtn : forall k, 0 <= k <= 4 -> Z.land buttons (Z.ones k) = 0).
    { intros k Hk. subst buttons. rewrite to_uint8_lor, Z.land_lor_distr_l.
      rewrite !to_uint8_land, <- !Z.land_assoc, !(Z.land_comm 255), !Z.land_assoc.
      rewrite !shiftl_low_bits by lia. reflexivity. }
    split; [| split; [| split]].
    + change 0x03 with (Z.ones 2). rewrite !Z.land_lor_distr_l, Hbtn by lia.
      rewrite !Z.land_ones by lia. rewrite Hxt, Hyt.
      rewrite Z.mod_mul by lia. rewrite (Z.mod_small (_ / _)) by lia.
      change (64 mod 2 ^ 2) with 0. rewrite !Z.lor_0_l, !Z.lor_0_r. reflexivity.
    + rewrite !Z.land_lor_distr_l.
      assert (E1 : Z.land buttons 0x0c = 0).
      { rewrite <- (Z.land_ones_low 0x0c 4) by (cbn; lia).
        rewrite (Z.land_comm 0x0c), Z.land_assoc, Hbtn by lia. reflexivity. }
      assert (E2 : Z.land xt 0x0c = 0).
      { rewrite Hxt. generalize Rx. generalize ((mouse.x m mod 2 ^ 8) / 2 ^ 6).
        intros z Hz. assert (z = 0 \/ z = 1 \/ z = 2 \/ z = 3) as [-> | [-> | [-> | ->]]] by lia;
          reflexivity. }
      assert (E3 : Z.land yt 0x0c = yt).
      { rewrite Hyt. generalize Ry. generalize ((mouse.y m mod 2 ^ 8) / 2 ^ 6).
        intros z Hz. assert (z = 0 \/ z = 1 \/ z = 2 \/ z = 3) as [-> | [-> | [-> | ->]]] by lia;
          reflexivity. }
      rewrite E1, E2, E3. cbn [Z.land Z.lor]. rewrite Z.lor_0_l.
      rewrite Hyt, x_top_bits. rewrite Z.shiftr_div_pow2 by lia.
      rewrite Z.div_mul by lia. reflexivity.
    + apply x_top_bits.
    + apply x_top_bits.
Qed.

(** C3. With the buffer at its template and the middle-button bit placed
    above the wheel nibble, the low four bits of byte 3 are (-w) & 0x0f for
    the wheel accumulator w. *)
Theorem encode_wheel_nibble (m : mouse.mouse_state_t) :
  mouse.state m = [0x40; 0x00; 0x00; 0x00] ->
  4 <= MOUSE_MMB_BIT ->
  -15 <= mouse.wheel m <= 15 ->
  exists b3 : Z,
    mouse.state (encode m) !! 3%nat = Some b3
    /\ Z.land b3 0x0f = Z.land (- mouse.wheel m) 0x0f
    /\ Z.land b3 0x0f = (- mouse.wheel m) mod 16.
Proof.
  intros Hst HM Hw.
  rewrite (encode_state m _ _ _ _ Hst). eexists. split; [reflexivity |].
  match goal with |- ?l = ?r /\ _ => assert (E : l = r) end.
  { rewrite or_byte, Z.lor_0_l, Z.land_lor_distr_l, !nibble_to_uint8, nibble_wrap_int.
    change 0x0f with (Z.ones 4) at 1. rewrite shiftl_low_bits by lia.
    rewrite Z.lor_0_l, <- Z.land_assoc, nibble_wrap_int. reflexivity. }
  split; [exact E |].
  rewrite E. change 0x0f with (Z.ones 4). apply Z.land_ones. lia.
Qed.

  (** *** Escalation inside one pass *)

Lemma push_update_cases (m : mouse.mouse_state_t) (full_packet : Z) :
  mouse.update (push_update m full_packet)
  = if truthy full_packet || (mouse.update m =? 3) then 3 else 2.
Proof. unfold push_update. destruct (truthy full_packet || _); reflexivity. Qed.

(** [push_update] never lowers a pending length, and a 3-byte request
    leaves a pending 4-byte one alone. *)
Lemma push_update_escalates (m : mouse.mouse_state_t) (full_packet : Z) :
  mouse.update m = -1 \/ mouse.update m = 2 \/ mouse.update m = 3 ->
  let m' := push_update m full_packet in
  (mouse.update m' = 2 \/ mouse.update m' = 3)
  /\ mouse.update m <= mouse.update m'
  /\ (mouse.update m = 3 -> mouse.update m' = 3).
Proof.
  intros H. cbv zeta. rewrite push_update_cases.
  destruct (truthy full_packet); cbn [orb]; [lia |].
  destruct (Z.eqb_spec (mouse.update m) 3); lia.
Qed.

Lemma push_update_frame (m : mouse.mouse_state_t) (full_packet : Z) :
  let m' := push_update m full_packet in
  mouse.lmb m' = mouse.lmb m /\ mouse.rmb m' = mouse.rmb m /\ mouse.mmb m' = mouse.mmb m
  /\ mouse.x m' = mouse.x m /\ mouse.y m' = mouse.y m /\ mouse.wheel m' = mouse.wheel m
  /\ mouse.force_update m' = mouse.force_update m /\ mouse.state m' = mouse.state m.
Proof. cbv zeta. unfold push_update. destruct (truthy full_packet || _); cbn; tauto. Qed.

(** The dispatch of one event never lowers the pending length either. *)
Lemma handle_event_escalates (wheel_opt : Z) (m : mouse.mouse_state_t) (e : ev.input_event) :
  mouse.update m = -1 \/ mouse.update m = 2 \/ mouse.update m = 3 ->
  let m' := handle_event wheel_opt m e in
  (mouse.update m' = -1 \/ mouse.update m' = 2 \/ mouse.update m' = 3)
  /\ mouse.update m <= mouse.update m'.
Proof.
  intros H. cbv zeta. unfold handle_event.
  assert (P : forall m0 f, mouse.update m0 = mouse.update m \/ mouse.update m0 = 3 ->
              (mouse.update (push_update m0 f) = -1 \/ mouse.update (push_update m0 f) = 2
               \/ mouse.update (push_update m0 f) = 3)
              /\ mouse.update m <= mouse.update (push_update m0 f)).
  { intros m0 f Hm0. rewrite push_update_cases.
    destruct (truthy f); cbn [orb]; [lia |].
    destruct (Z.eqb_spec (mouse.update m0) 3); lia. }
  assert (Q : forall m0, mouse.update m0 = mouse.update m \/ mouse.update m0 = 3 ->
              mouse.update (push_update m0 1) = mouse.update m
              \/ mouse.update (push_update m0 1) = 3).
  { intros m0 _. rewrite push_update_cases. right. reflexivity. }
  destruct (ev.type e =? EV_KEY).
  - destruct (ev.code e =? BTN_LEFT); [apply P; left; reflexivity |].
    destruct (ev.code e =? BTN_RIGHT); [apply P; left; reflexivity |].
    destruct (ev.code e =? BTN_MIDDLE); [| lia].
    destruct (truthy wheel_opt); [apply P; left; reflexivity | lia].
  - destruct (ev.type e =? EV_REL); [| lia].
    apply P.
    destruct (ev.code e =? REL_X); [left; reflexivity |].
    destruct (ev.code e =? REL_Y); [left; reflexivity |].
    destruct (ev.code e =? REL_WHEEL); [| left; reflexivity].
    destruct (truthy wheel_opt); [| left; reflexivity].
    apply Q. left. reflexivity.
Qed.

  (** *** The flush *)

(** C4. In a pass that processes an input event, the flush branch is taken
    if and only if the deadline has passed (time_diff.tv_sec < 0) with an
    update pending (mouse.update > -1), or force_update is set; the state
    and the deadline tested are those after the dispatch of the event, and
    without a flush both are left as they are and nothing is sent. *)
Theorem flush_iff_deadline_or_forced (wheel_opt : Z) (m : mouse.mouse_state_t)
    (time_target : timespec) (e : ev.input_event) (now clock : timespec) :
  let m1 := handle_event wheel_opt m e in
  let time_diff := timespec_diff time_target now in
  let due := (tv_sec time_diff < 0 /\ mouse.update m1 > -1) \/ mouse.force_update m1 <> 0 in
  let r := process_event wheel_opt m time_target e now clock in
  ((exists bytes, r.2 = Some bytes) <-> due)
  /\ (r.2 = Some (send_updates (encode m1)) <-> due)
  /\ (r = (m1, time_target, None) <-> ~ due).
Proof.
  cbv zeta. unfold process_event, flush, flush_due, truthy.
  set (m1 := handle_event wheel_opt m e).
  set (d := timespec_diff time_target now).
  destruct (Z.ltb_spec (tv_sec d) 0), (Z.ltb_spec (-1) (mouse.update m1)),
    (Z.eqb_spec (mouse.force_update m1) 0); cbn;
    (split; [| split]); split;
    try (intros [bytes Hb]); try discriminate; intros; eauto; try lia;
    try congruence; try tauto.
Qed.

(** C5. After a flush the accumulators x, y and wheel are zero, the pending
    length is -1, force_update is 0, the packet buffer is the template
    (0x40, 0, 0, 0), and the three button latches are what they were. *)
Theorem flush_resets_transient_state (m : mouse.mouse_state_t) (clock : timespec) :
  let m' := (flush m clock).1.1 in
  mouse.x m' = 0 /\ mouse.y m' = 0 /\ mouse.wheel m' = 0
  /\ mouse.update m' = -1
  /\ mouse.force_update m' = 0
  /\ mouse.state m' = [0x40; 0x00; 0x00; 0x00]
  /\ mouse.lmb m' = mouse.lmb m /\ mouse.rmb m' = mouse.rmb m /\ mouse.mmb m' = mouse.mmb m.
Proof. cbv zeta. unfold flush, reset_after_send, memcpy_state, encode. cbn. tauto. Qed.

(** The same, seen from the loop: whenever a pass flushes, the state it
    leaves is reset and carries the latches of the dispatched event. *)
Lemma process_event_flushed (wheel_opt : Z) (m : mouse.mouse_state_t)
    (time_target : timespec) (e : ev.input_event) (now clock : timespec) (bytes : list Z) :
  (process_event wheel_opt m time_target e now clock).2 = Some bytes ->
  process_event wheel_opt m time_target e now clock
  = ((flush (handle_event wheel_opt m e) clock).1, Some bytes).
Proof.
  unfold process_event. destruct (flush_due _ _); [| discriminate].
  destruct (flush _ _) as [[m' t'] sent]. cbn. congruence.
Qed.

(** The flush condition at the level of a whole pass: a pass that gets the
    event [e] and is not held up by the identification puts a packet on the
    line exactly when the condition of line 317 holds after the dispatch. *)
Lemma loop_iteration_packet_iff (o : options.opts) (m m' : mouse.mouse_state_t)
    (time_target target' : timespec) (i : iteration_input) (e : ev.input_event)
    (tr : list transmission) :
  event i = Some e ->
  loop_iteration o m time_target i = Some (m', target', tr) ->
  (exists bytes, In (Packet bytes) tr)
  <-> flush_due (handle_event (options.wheel o) (mouse.set_update (-1) m) e)
        (timespec_diff time_target (clock_now i)) = true.
Proof.
  intros He. unfold loop_iteration, process_event. rewrite He.
  set (idt := if _ && _ then _ else _).
  assert (Hid : forall t, idt = Some t -> forall bytes, ~ In (Packet bytes) t).
  { subst idt. intros t. destruct (_ && _).
    - destruct (mouse_ident _ _ _) as [[b r] |]; [| discriminate].
      intros [= <-] bytes [H | []]. discriminate.
    - intros [= <-] bytes []. }
  destruct idt as [t |]; [| discriminate].
  specialize (Hid t eq_refl).
  destruct (flush_due _ _); cbn; intros [= <- <- <-]; split.
  - reflexivity.
  - intros _. eexists. apply in_or_app. right. left. reflexivity.
  - intros [bytes H]. apply in_app_or in H. destruct H as [H | []].
    exfalso. exact (Hid _ H).
  - discriminate.
Qed.

(** A pass that gets no event only clears the pending length. *)
Lemma idle_pass_clears_update (o : options.opts) (m : mouse.mouse_state_t)
    (time_target : timespec) (i : iteration_input) :
  event i = None ->
  get_pin (pin i) (Z.lor TIOCM_CTS TIOCM_DSR) <> 0 ->
  loop_iteration o m time_target i = Some (mouse.set_update (-1) m, time_target, []).
Proof.
  intros He Hp. unfold loop_iteration. rewrite He.
  destruct (Z.eqb_spec (get_pin (pin i) (Z.lor TIOCM_CTS TIOCM_DSR)) 0); [contradiction |].
  reflexivity.
Qed.

  (** *** The dispatch of one event *)

Ltac mouse_fields :=
  cbn [mouse.pc_state mouse.state mouse.x mouse.y mouse.wheel mouse.update mouse.lmb
       mouse.rmb mouse.mmb mouse.force_update mouse.set_state mouse.set_x mouse.set_y
       mouse.set_wheel mouse.set_update mouse.set_lmb mouse.set_rmb mouse.set_mmb
       mouse.set_force_update] in *.

Ltac handle_event_cases :=
  unfold handle_event, push_update; mouse_fields;
  repeat (match goal with
          | |- context [if ?c then _ else _] =>
              lazymatch c with
              | context [if _ then _ else _] => fail
              | _ => destruct c eqn:?
              end
          end; mouse_fields).

(** What [handle_event] leaves alone, and what it keeps within bounds. *)
Lemma handle_event_keeps (wheel_opt : Z) (m : mouse.mouse_state_t) (e : ev.input_event) :
  let m1 := handle_event wheel_opt m e in
  mouse.state m1 = mouse.state m
  /\ mouse.pc_state m1 = mouse.pc_state m
  /\ (-127 <= mouse.x m <= 127 -> -127 <= mouse.x m1 <= 127)
  /\ (-127 <= mouse.y m <= 127 -> -127 <= mouse.y m1 <= 127)
  /\ (-15 <= mouse.wheel m <= 15 -> -15 <= mouse.wheel m1 <= 15).
Proof.
  cbv zeta.
  pose proof (clamp_range (wrap_int (mouse.x m + ev.value e)) (-127) 127 ltac:(lia)).
  pose proof (clamp_range (wrap_int (mouse.y m + ev.value e)) (-127) 127 ltac:(lia)).
  pose proof (clamp_range (wrap_int (mouse.wheel m + ev.value e)) (-15) 15 ltac:(lia)).
  handle_event_cases; repeat split; intros; try reflexivity; lia.
Qed.

(** A forced update always comes with a pending length. *)
Lemma handle_event_forced (wheel_opt : Z) (m : mouse.mouse_state_t) (e : ev.input_event) :
  let m1 := handle_event wheel_opt m e in
  (mouse.force_update m1 = mouse.force_update m
   /\ mouse.lmb m1 = mouse.lmb m /\ mouse.rmb m1 = mouse.rmb m /\ mouse.mmb m1 = mouse.mmb m)
  \/ (mouse.force_update m1 = 1 /\ (mouse.update m1 = 2 \/ mouse.update m1 = 3)).
Proof.
  cbv zeta. handle_event_cases; first [left; repeat split; reflexivity | right; split; [reflexivity | lia]].
Qed.

Lemma to_uint8_range (z : Z) : 0 <= to_uint8 z < 256.
Proof. unfold to_uint8. apply Z.mod_pos_bound. lia. Qed.

Lemma or_keeps_bit6 (s v : Z) :
  Z.testbit s 6 = true -> Z.testbit (to_uint8 (Z.lor s v)) 6 = true.
Proof.
  intros H. unfold to_uint8. rewrite Z.testbit_mod_pow2 by lia.
  rewrite Z.lor_spec, H. reflexivity.
Qed.

(** The packet a flush sends from a state whose buffer is at its template. *)
Lemma flush_packet_framed (m : mouse.mouse_state_t) :
  mouse.state m = [0x40; 0x00; 0x00; 0x00] ->
  mouse.update m = 2 \/ mouse.update m = 3 ->
  well_framed (Packet (send_updates (encode m))).
Proof.
  intros Hst Hu. unfold send_updates.
  destruct (encode_frame m) as (_ & _ & _ & Eu & _). cbv zeta in Eu. rewrite Eu.
  rewrite (encode_state m _ _ _ _ Hst).
  set (b0 := to_uint8 (Z.lor (to_uint8 _) (Z.shiftr (Z.land (mouse.y m) 192) 4))).
  set (b3 := to_uint8 (Z.lor (to_uint8 _) (Z.land (wrap_int (- mouse.wheel m)) 15))).
  rewrite !Z.lor_0_l.
  pose proof (low6_range (mouse.x m)) as Lx. pose proof (low6_range (mouse.y m)) as Ly.
  rewrite !to_uint8_small by lia.
  assert (B6 : Z.testbit b0 6 = true).
  { subst b0. repeat apply or_keeps_bit6. reflexivity. }
  assert (R0 : 0 <= b0 < 256) by apply to_uint8_range.
  destruct Hu as [-> | ->]; cbn [Z.add Z.to_nat Pos.to_nat Pos.iter_op Init.Nat.add
                                  Pos.add Pos.succ write_loop lookup list_lookup];
    exists b0, (Z.land (mouse.x m) 63), (Z.land (mouse.y m) 63).
  - exists []. repeat split; auto; lia.
  - exists [b3]. repeat split; eauto; lia.
Qed.

Lemma mouse_ident_announces (reads rest : list (option Z)) (wheel_enabled immediate : Z)
    (bytes : list Z) :
  mouse_ident reads wheel_enabled immediate = Some (bytes, rest) ->
  bytes = (if truthy wheel_enabled then [0x4D; 0x5A; 0x00] else [0x4D]).
Proof.
  unfold mouse_ident.
  destruct (truthy immediate);
    [| destruct (wait_pin_state reads _ 0) as [reads1 |]; [| discriminate];
       destruct (wait_pin_state reads1 _ 1) as [reads2 |]; [| discriminate]];
    destruct (truthy wheel_enabled); intros [= <- <-]; reflexivity.
Qed.

(** One pass from a state at rest. *)
Lemma pass_keeps_at_rest (o : options.opts) (m m' : mouse.mouse_state_t)
    (time_target target' : timespec) (i : iteration_input) (tr : list transmission) :
  at_rest m ->
  loop_iteration o m time_target i = Some (m', target', tr) ->
  at_rest m' /\ Forall well_framed tr.
Proof.
  intros (Hst & Hf & Hx & Hy & Hw). unfold loop_iteration.
  set (idt := if _ && _ then _ else _).
  assert (Hid : forall t, idt = Some t -> Forall well_framed t).
  { subst idt. intros t. destruct (_ && _).
    - destruct (mouse_ident _ _ _) as [[b r] |] eqn:B; [| discriminate].
      apply mouse_ident_announces in B.
      intros [= <-]. constructor; [| constructor]. cbn. rewrite B.
      destruct (truthy (options.wheel o)); [left | right]; reflexivity.
    - intros [= <-]. constructor. }
  destruct idt as [t |]; [| discriminate]. specialize (Hid t eq_refl).
  destruct (event i) as [e |].
  - unfold process_event, flush.
    set (m0 := mouse.set_update (-1) m).
    pose proof (handle_event_keeps (options.wheel o) m0 e) as (Ks & _ & Kx & Ky & Kw).
    pose proof (handle_event_forced (options.wheel o) m0 e) as Kf.
    pose proof (handle_event_escalates (options.wheel o) m0 e ltac:(left; reflexivity)) as [Ku _].
    cbv zeta in Ks, Kx, Ky, Kw, Kf, Ku.
    set (m1 := handle_event (options.wheel o) m0 e) in *.
    change (mouse.state m0) with (mouse.state m) in Ks.
    change (mouse.x m0) with (mouse.x m) in Kx. change (mouse.y m0) with (mouse.y m) in Ky.
    change (mouse.wheel m0) with (mouse.wheel m) in Kw.
    change (mouse.force_update m0) with (mouse.force_update m) in Kf.
    destruct (flush_due m1 _) eqn:Due; cbn; intros [= <- <- <-].
    + split.
      * unfold at_rest, reset_after_send, memcpy_state. cbn. repeat split; lia.
      * apply Forall_app. split; [exact Hid |]. constructor; [| constructor].
        apply flush_packet_framed; [congruence |].
        unfold flush_due, truthy in Due.
        destruct Kf as [(Kf & _) | (_ & Kf)]; [| exact Kf].
        rewrite Kf, Hf in Due. cbn in Due. rewrite orb_false_r in Due.
        apply andb_true_iff in Due. destruct Due as [_ Due]. apply Z.ltb_lt in Due. lia.
    + split.
      * unfold at_rest. split; [congruence |]. split; [| auto].
        unfold flush_due, truthy in Due. apply orb_false_iff in Due. destruct Due as [_ Due].
        destruct (Z.eqb_spec (mouse.force_update m1) 0); [assumption | discriminate].
      * rewrite app_nil_r. exact Hid.
  - intros [= <- <- <-]. split; [| exact Hid]. unfold at_rest. cbn. auto.
Qed.

(** X17. Once the buffer is at its template, no update is forced and the
    accumulators are within their clamps (as after any flush), every later
    pass of the loop keeps it so, and everything put on the serial line is
    well framed: a packet has three or four bytes, of which the first has
    bit 6 set and the next two are below 64, and an identification is one of
    the two announcements. *)
Theorem run_keeps_at_rest (o : options.opts) (inputs : list iteration_input)
    (m m' : mouse.mouse_state_t) (time_target target' : timespec) (tr : list transmission) :
  at_rest m ->
  run o m time_target inputs = Some (m', target', tr) ->
  at_rest m' /\ Forall well_framed tr.
Proof.
  revert m time_target tr. induction inputs as [| i inputs IH]; intros m time_target tr Hm.
  - cbn. intros [= <- <- <-]. split; [exact Hm | constructor].
  - cbn [run].
    destruct (loop_iteration o m time_target i) as [[[m1 t1] tr1] |] eqn:P; [| discriminate].
    destruct (pass_keeps_at_rest _ _ _ _ _ _ _ Hm P) as [Hm1 F1].
    destruct (run o m1 t1 inputs) as [[[m2 t2] tr2] |] eqn:R; [| discriminate].
    intros [= <- <- <-]. destruct (IH _ _ _ Hm1 R) as [Hm2 F2].
    split; [exact Hm2 | apply Forall_app; split; assumption].
Qed.

Lemma write_loop_length (buffer : list Z) (n i : nat) :
  (length (write_loop buffer n i) <= n)%nat.
Proof.
  revert i. induction n as [| n IH]; intros i; cbn [write_loop]; [cbn; lia |].
  destruct (buffer !! i); cbn [length]; [specialize (IH (S i)) |]; lia.
Qed.

(** With the wheel option off the dispatch never touches the middle button
    or the wheel, and never asks for the fourth byte. *)
Lemma handle_event_basic (m : mouse.mouse_state_t) (e : ev.input_event) :
  mouse.mmb m = 0 ->
  mouse.update m <> 3 ->
  let m1 := handle_event 0 m e in
  mouse.mmb m1 = 0 /\ mouse.wheel m1 = mouse.wheel m /\ mouse.update m1 <> 3.
Proof.
  intros Hm Hu. cbv zeta. handle_event_cases; repeat split; try assumption; try lia;
    try reflexivity;
    repeat match goal with
           | H : truthy _ = true |- _ => unfold truthy in H; rewrite ?Hm in H; cbn in H
           | H : (_ || _) = true |- _ => apply orb_true_iff in H; destruct H
           | H : (_ =? _) = true |- _ => apply Z.eqb_eq in H
           end; try discriminate; try lia.
Qed.

(** X18. With the wheel option off and the middle button never latched, the
    program speaks the basic protocol only: over any number of passes the
    middle-button latch stays 0, every packet has at most three bytes and
    every identification is the single byte 0x4D. *)
Theorem basic_protocol_without_wheel (o : options.opts) (inputs : list iteration_input)
    (m m' : mouse.mouse_state_t) (time_target target' : timespec) (tr : list transmission) :
  options.wheel o = 0 ->
  mouse.mmb m = 0 ->
  run o m time_target inputs = Some (m', target', tr) ->
  mouse.mmb m' = 0
  /\ Forall (fun t => match t with
                      | Packet bytes => (length bytes <= 3)%nat
                      | Ident bytes => bytes = [0x4D]
                      end) tr.
Proof.
  intros Hw. revert m time_target tr.
  induction inputs as [| i inputs IH]; intros m time_target tr Hm.
  - cbn. intros [= <- <- <-]. split; [exact Hm | constructor].
  - cbn [run].
    destruct (loop_iteration o m time_target i) as [[[m1 t1] tr1] |] eqn:P; [| discriminate].
    destruct (run o m1 t1 inputs) as [[[m2 t2] tr2] |] eqn:R; [| discriminate].
    intros [= <- <- <-].
    assert (S1 : mouse.mmb m1 = 0
                 /\ Forall (fun t => match t with
                                     | Packet bytes => (length bytes <= 3)%nat
                                     | Ident bytes => bytes = [0x4D]
                                     end) tr1).
    { clear IH R. revert P. unfold loop_iteration. rewrite Hw.
      set (idt := if _ && _ then _ else _).
      assert (Hid : forall t, idt = Some t ->
                Forall (fun t => match t with
                                 | Packet bytes => (length bytes <= 3)%nat
                                 | Ident bytes => bytes = [0x4D]
                                 end) t).
      { subst idt. intros t. destruct (_ && _).
        - destruct (mouse_ident _ _ _) as [[b r] |] eqn:B; [| discriminate].
          apply mouse_ident_announces in B.
          intros [= <-]. constructor; [exact B | constructor].
        - intros [= <-]. constructor. }
      destruct idt as [t |]; [| discriminate]. specialize (Hid t eq_refl).
      destruct (event i) as [e |].
      - unfold process_event, flush.
        pose proof (handle_event_basic (mouse.set_update (-1) m) e Hm ltac:(cbn; lia))
          as (Bm & _ & Bu).
        cbv zeta in Bm, Bu.
        set (m0 := handle_event 0 (mouse.set_update (-1) m) e) in *.
        pose proof (handle_event_escalates 0 (mouse.set_update (-1) m) e
                      ltac:(left; reflexivity)) as [Ku _].
        cbv zeta in Ku. fold m0 in Ku.
        destruct (flush_due m0 _); cbn; intros [= <- <- <-].
        + split; [exact Bm |]. apply Forall_app. split; [exact Hid |].
          constructor; [| constructor]. unfold send_updates.
          destruct (encode_frame m0) as (_ & _ & _ & Eu & _). cbv zeta in Eu. rewrite Eu.
          etransitivity; [apply write_loop_length | lia].
        + split; [exact Bm |]. rewrite app_nil_r. exact Hid.
      - intros [= <- <- <-]. split; [exact Hm | exact Hid]. }
    destruct S1 as [Hm1 F1]. destruct (IH _ _ _ Hm1 R) as [Hm2 F2].
    split; [exact Hm2 | apply Forall_app; split; assumption].
Qed.

(** The write loop within the array writes a stretch of it. *)
Lemma write_loop_take (buffer : list Z) (n i : nat) :
  (i + n <= length buffer)%nat ->
  write_loop buffer n i = take n (drop i buffer).
Proof.
  revert i. induction n as [| n IH]; intros i H.
  - reflexivity.
  - cbn [write_loop].
    destruct (lookup_lt_is_Some_2 buffer i ltac:(lia)) as [b Hb].
    rewrite Hb, (drop_S _ _ _ Hb). cbn [take]. f_equal. apply IH. lia.
Qed.

Lemma or_into_length (i : nat) (v : Z) (s : list Z) : length (or_into i v s) = length s.
Proof. unfold or_into. apply length_insert. Qed.

Lemma encode_length (m : mouse.mouse_state_t) :
  length (mouse.state (encode m)) = length (mouse.state m).
Proof. unfold encode. cbn [mouse.state mouse.set_state]. now rewrite !or_into_length. Qed.

(** X19. A left or right button event is never held back by the rate
    limiter: whatever the clock and the deadline, the pass that reads it
    flushes; the latch of that button takes the value of the event, the
    other latches keep theirs, and the packet has four bytes when the middle
    button is latched and three otherwise. *)
Theorem button_event_flushes_at_once (wheel_opt : Z) (m : mouse.mouse_state_t)
    (time_target : timespec) (e : ev.input_event) (now clock : timespec) :
  ev.type e = EV_KEY ->
  ev.code e = BTN_LEFT \/ ev.code e = BTN_RIGHT ->
  mouse.update m = -1 ->
  length (mouse.state m) = 4%nat ->
  exists m' target' bytes,
    process_event wheel_opt m time_target e now clock = (m', target', Some bytes)
    /\ length bytes = (if truthy (mouse.mmb m) then 4 else 3)%nat
    /\ mouse.lmb m' = (if ev.code e =? BTN_LEFT then ev.value e else mouse.lmb m)
    /\ mouse.rmb m' = (if ev.code e =? BTN_RIGHT then ev.value e else mouse.rmb m)
    /\ mouse.mmb m' = mouse.mmb m.
Proof.
  intros Ht Hc Hu Hl. unfold process_event, flush.
  set (m1 := handle_event wheel_opt m e).
  assert (F : mouse.force_update m1 = 1
              /\ mouse.update m1 = (if truthy (mouse.mmb m) then 3 else 2)
              /\ mouse.state m1 = mouse.state m
              /\ mouse.lmb m1 = (if ev.code e =? BTN_LEFT then ev.value e else mouse.lmb m)
              /\ mouse.rmb m1 = (if ev.code e =? BTN_RIGHT then ev.value e else mouse.rmb m)
              /\ mouse.mmb m1 = mouse.mmb m).
  { subst m1. unfold handle_event. rewrite Ht. cbn [Z.eqb EV_KEY Pos.eqb].
    destruct Hc as [Hc | Hc]; rewrite Hc; cbn [Z.eqb BTN_LEFT BTN_RIGHT Pos.eqb];
      rewrite push_update_cases; unfold push_update; mouse_fields; rewrite Hu;
      cbn [Z.eqb]; rewrite orb_false_r;
      destruct (truthy (mouse.mmb m)); cbn; repeat split. }
  destruct F as (Ff & Fu & Fs & Fl & Fr & Fm).
  assert (Due : flush_due m1 (timespec_diff time_target now) = true).
  { unfold flush_due, truthy. rewrite Ff. apply orb_true_r. }
  rewrite Due. do 3 eexists. split; [reflexivity |].
  destruct (encode_frame m1) as (_ & _ & _ & Eu & El & Er & Em & _). cbv zeta in *.
  split; [| unfold reset_after_send, memcpy_state; cbn; repeat split; congruence].
  unfold send_updates. rewrite Eu, Fu.
  rewrite write_loop_take by (rewrite encode_length, Fs, Hl; destruct (truthy _); cbn; lia).
  rewrite drop_0, length_take, encode_length, Fs, Hl.
  destruct (truthy (mouse.mmb m)); reflexivity.
Qed.

(** X20. A relative-motion event of any axis, the wheel and the axes the
    program does not know included, never forces a flush: from a state with
    no forced update the pass that reads it flushes exactly when the
    deadline has passed, and until then the motion stays in the
    accumulators. *)
Theorem motion_waits_for_deadline (wheel_opt : Z) (m : mouse.mouse_state_t)
    (time_target : timespec) (e : ev.input_event) (now clock : timespec) :
  ev.type e = EV_REL ->
  mouse.force_update m = 0 ->
  let m1 := handle_event wheel_opt m e in
  let r := process_event wheel_opt m time_target e now clock in
  (mouse.update m1 = 2 \/ mouse.update m1 = 3)
  /\ mouse.force_update m1 = 0
  /\ (r = (m1, time_target, None) <-> 0 <= tv_sec (timespec_diff time_target now))
  /\ ((exists bytes, r.2 = Some bytes) <-> tv_sec (timespec_diff time_target now) < 0).
Proof.
  intros Ht Hf. cbv zeta. unfold process_event, flush.
  assert (F : (mouse.update (handle_event wheel_opt m e) = 2
               \/ mouse.update (handle_event wheel_opt m e) = 3)
              /\ mouse.force_update (handle_event wheel_opt m e) = 0).
  { unfold handle_event. rewrite Ht. cbn [Z.eqb EV_KEY EV_REL Pos.eqb].
    rewrite push_update_cases.
    split; [destruct (_ || _); auto |].
    unfold push_update. mouse_fields.
    repeat (match goal with
            | |- context [if ?c then _ else _] =>
                lazymatch c with
                | context [if _ then _ else _] => fail
                | _ => destruct c
                end
            end; mouse_fields); exact Hf. }
  destruct F as [Fu Ff]. set (m1 := handle_event wheel_opt m e) in *.
  split; [exact Fu |]. split; [exact Ff |].
  unfold flush_due, truthy. rewrite Ff. cbn [Z.eqb negb]. rewrite orb_false_r.
  destruct (Z.ltb_spec (tv_sec (timespec_diff time_target now)) 0) as [Hlt | Hge];
    destruct (Z.ltb_spec (-1) (mouse.update m1)); try lia; cbn; split; split;
    intros; try lia; try discriminate; eauto.
  - destruct H0 as [bytes H0]. discriminate.
Qed.

(** X21. An event the program has no use for (any type other than EV_KEY
    and EV_REL, such as the synchronisation reports, or a key other than
    the three buttons) changes nothing: from a state with no forced update,
    the pass that reads it sends nothing, whatever the clock, and leaves
    the latches and the accumulators as they were. *)
Theorem ignored_event_is_silent (o : options.opts) (m : mouse.mouse_state_t)
    (time_target : timespec) (i : iteration_input) (e : ev.input_event) :
  event i = Some e ->
  ev.type e <> EV_REL ->
  (ev.type e = EV_KEY ->
   ev.code e <> BTN_LEFT /\ ev.code e <> BTN_RIGHT /\ ev.code e <> BTN_MIDDLE) ->
  mouse.force_update m = 0 ->
  get_pin (pin i) (Z.lor TIOCM_CTS TIOCM_DSR) <> 0 ->
  loop_iteration o m time_target i = Some (mouse.set_update (-1) m, time_target, []).
Proof.
  intros He Hr Hk Hf Hp. unfold loop_iteration. rewrite He.
  destruct (Z.eqb_spec (get_pin (pin i) (Z.lor TIOCM_CTS TIOCM_DSR)) 0); [contradiction |].
  cbn [andb]. unfold process_event.
  assert (E : handle_event (options.wheel o) (mouse.set_update (-1) m) e
              = mouse.set_update (-1) m).
  { unfold handle_event.
    destruct (Z.eqb_spec (ev.type e) EV_KEY) as [K | _].
    - destruct (Hk K) as (N1 & N2 & N3).
      destruct (Z.eqb_spec (ev.code e) BTN_LEFT); [contradiction |].
      destruct (Z.eqb_spec (ev.code e) BTN_RIGHT); [contradiction |].
      destruct (Z.eqb_spec (ev.code e) BTN_MIDDLE); [contradiction |]. reflexivity.
    - destruct (Z.eqb_spec (ev.type e) EV_REL); [contradiction | reflexivity]. }
  rewrite E. unfold flush_due, truthy. cbn [mouse.update mouse.set_update mouse.force_update].
  rewrite Hf. cbn. rewrite andb_false_r. reflexivity.
Qed.

(** The bits of the encoded bytes that carry the motion, with the buttons
    above them. *)
Lemma encode_motion_fields (m : mouse.mouse_state_t) :
  mouse.state m = [0x40; 0x00; 0x00; 0x00] ->
  4 <= MOUSE_LMB_BIT -> 4 <= MOUSE_RMB_BIT ->
  exists b0 b3,
    mouse.state (encode m) = [b0; mouse.x m mod 64; mouse.y m mod 64; b3]
    /\ Z.land b0 3 = (mouse.x m mod 2 ^ 8) / 2 ^ 6
    /\ Z.land b0 12 = (mouse.y m mod 2 ^ 8) / 2 ^ 6 * 4.
Proof.
  intros Hst HL HR. rewrite (encode_state m _ _ _ _ Hst). eexists _, _.
  pose proof (low6_range (mouse.x m)) as Lx. pose proof (low6_range (mouse.y m)) as Ly.
  pose proof (top_bits_range (mouse.x m)) as Rx.
  pose proof (top_bits_range (mouse.y m)) as Ry.
  split.
  { rewrite !Z.lor_0_l.
    rewrite (to_uint8_small (Z.land (mouse.x m) 63)),
            (to_uint8_small (Z.land (mouse.y m) 63)) by lia.
    change 63 with (Z.ones 6). rewrite !Z.land_ones by lia. reflexivity. }
  rewrite !or_byte, to_uint8_lor, !to_uint8_wrap_int, x_top_bits, y_top_bits.
  rewrite (to_uint8_small (_ / _)), (to_uint8_small (_ / _ * _)) by lia.
  assert (S : forall v p k, 0 <= k <= 4 -> 4 <= p ->
                Z.land (to_uint8 (Z.shiftl v p)) (Z.ones k) = 0).
  { intros v p k Hk Hp. rewrite to_uint8_land, <- Z.land_assoc, (Z.land_comm 255), Z.land_assoc.
    rewrite shiftl_low_bits by lia. reflexivity. }
  assert (T : forall z, 0 <= z < 4 -> Z.land z 3 = z /\ Z.land z 12 = 0
                                      /\ Z.land (z * 2 ^ 2) 3 = 0
                                      /\ Z.land (z * 2 ^ 2) 12 = z * 4).
  { intros z Hz.
    assert (z = 0 \/ z = 1 \/ z = 2 \/ z = 3) as [-> | [-> | [-> | ->]]] by lia;
      repeat split. }
  destruct (T _ Rx) as (X1 & X2 & _). destruct (T _ Ry) as (_ & _ & Y1 & Y2).
  assert (S12 : forall v p, 4 <= p -> Z.land (to_uint8 (Z.shiftl v p)) 12 = 0).
  { intros v p Hp. rewrite <- (Z.land_ones_low 12 4) by (cbn; lia).
    rewrite (Z.land_comm 12), Z.land_assoc, S by lia. reflexivity. }
  split.
  - rewrite !Z.land_lor_distr_l, X1, Y1.
    change 3 with (Z.ones 2). rewrite !S by lia.
    change (Z.land (to_uint8 64) (Z.ones 2)) with 0.
    rewrite !Z.lor_0_l, !Z.lor_0_r. reflexivity.
  - rewrite !Z.land_lor_distr_l, !S12 by lia. rewrite X2, Y2.
    change (Z.land (to_uint8 64) 12) with 0.
    rewrite !Z.lor_0_l. reflexivity.
Qed.

(** X22. The motion survives the encoding: for accumulators within the range
    of a signed byte (which the clamps guarantee) and the button bits above
    the motion bits, reading bits 1-0 of byte 0 followed by the six bits of
    byte 1 as a signed 8-bit number gives back x, and bits 3-2 of byte 0
    followed by byte 2 give back y. *)
Theorem encode_motion_round_trip (m : mouse.mouse_state_t) :
  mouse.state m = [0x40; 0x00; 0x00; 0x00] ->
  4 <= MOUSE_LMB_BIT -> 4 <= MOUSE_RMB_BIT ->
  -128 <= mouse.x m <= 127 ->
  -128 <= mouse.y m <= 127 ->
  exists b0 b1 b2 b3,
    mouse.state (encode m) = [b0; b1; b2; b3]
    /\ (64 * Z.land b0 3 + b1 + 128) mod 256 - 128 = mouse.x m
    /\ (64 * (Z.land b0 12 / 4) + b2 + 128) mod 256 - 128 = mouse.y m.
Proof.
  intros Hst HL HR Hx Hy.
  destruct (encode_motion_fields m Hst HL HR) as (b0 & b3 & E & X & Y).
  exists b0, (mouse.x m mod 64), (mouse.y m mod 64), b3.
  split; [exact E |]. rewrite X, Y. rewrite Z.div_mul by lia.
  change (2 ^ 8) with 256. change (2 ^ 6) with 64.
  split; Z.div_mod_to_equations; lia.
Qed.

(** X23. How the wheel nibble reads as a signed 4-bit number: for a wheel
    accumulator from -7 to 8 it is the negated accumulator, but the clamp
    lets the accumulator reach 15 in size, and beyond that range the nibble
    wraps: an accumulator of 9 or more reads as 16 minus it (the opposite
    direction), one of -8 or less as -16 minus it. *)
Theorem encode_wheel_nibble_signed (m : mouse.mouse_state_t) :
  mouse.state m = [0x40; 0x00; 0x00; 0x00] ->
  4 <= MOUSE_MMB_BIT ->
  -15 <= mouse.wheel m <= 15 ->
  exists b3 : Z,
    mouse.state (encode m) !! 3%nat = Some b3
    /\ let s := (Z.land b3 0x0f + 8) mod 16 - 8 in
       (-7 <= mouse.wheel m <= 8 -> s = - mouse.wheel m)
       /\ (9 <= mouse.wheel m -> s = 16 - mouse.wheel m)
       /\ (mouse.wheel m <= -8 -> s = -16 - mouse.wheel m).
Proof.
  intros Hst HM Hw. rewrite (encode_state m _ _ _ _ Hst). eexists. split; [reflexivity |].
  match goal with
  | |- context [Z.land ?b 15] => assert (E : Z.land b 15 = (- mouse.wheel m) mod 16)
  end.
  { rewrite or_byte, Z.lor_0_l, Z.land_lor_distr_l, !nibble_to_uint8, nibble_wrap_int.
    change 0x0f with (Z.ones 4) at 1. rewrite shiftl_low_bits by lia.
    rewrite Z.lor_0_l, <- Z.land_assoc, nibble_wrap_int.
    change (Z.land (- mouse.wheel m) (Z.ones 4) = (- mouse.wheel m) mod 2 ^ 4).
    apply Z.land_ones. lia. }
  cbv zeta. rewrite E. repeat split; intros; Z.div_mod_to_equations; lia.
Qed.

(** X24. In immediate mode the loop never looks to the control lines for a
    reason to identify: every pass completes, whatever the lines show and
    even when the query fails, and only packets are put on the line. *)
Theorem immediate_mode_never_identifies (o : options.opts) (inputs : list iteration_input)
    (m : mouse.mouse_state_t) (time_target : timespec) :
  options.immediate o <> 0 ->
  exists m' target' tr,
    run o m time_target inputs = Some (m', target', tr)
    /\ Forall (fun t => exists bytes, t = Packet bytes) tr.
Proof.
  intros Hi. revert m time_target.
  induction inputs as [| i inputs IH]; intros m time_target.
  - do 3 eexists. split; [reflexivity | constructor].
  - cbn [run].
    assert (P : exists m1 t1 tr1,
               loop_iteration o m time_target i = Some (m1, t1, tr1)
               /\ Forall (fun t => exists bytes, t = Packet bytes) tr1).
    { unfold loop_iteration, truthy.
      destruct (Z.eqb_spec (options.immediate o) 0); [contradiction |].
      cbn [negb]. rewrite andb_false_r.
      destruct (event i) as [e |].
      - destruct (process_event _ _ _ _ _ _) as [[m1 t1] [bytes |]]; do 3 eexists;
          (split; [reflexivity |]); cbn [app]; repeat constructor. eauto.
      - do 3 eexists. split; [reflexivity | constructor]. }
    destruct P as (m1 & t1 & tr1 & -> & F1).
    destruct (IH m1 t1) as (m2 & t2 & tr2 & -> & F2).
    do 3 eexists. split; [reflexivity |]. apply Forall_app. split; assumption.
Qed.

(** X25. The rate limiter, end to end: with send intervals below one second,
    the deadline armed by a flush at the clock reading [clock] (the clock
    not being within a second of the end of its range) lets the
    condition of line 317 hold at a later reading [now] exactly when an
    update is forced, or when one is pending and strictly more than the
    interval (the 4-byte one when the middle button was latched at the
    flush, the 3-byte one otherwise) has gone by since [clock]. *)
Theorem deadline_spacing (m m2 : mouse.mouse_state_t) (clock now : timespec) :
  0 <= SERIALDELAY_3B < 10 ^ 9 ->
  0 <= SERIALDELAY_4B < 10 ^ 9 ->
  normalized clock -> tv_sec clock + 1 < 2 ^ 62 -> normalized now ->
  let interval := if truthy (mouse.mmb m) then SERIALDELAY_4B else SERIALDELAY_3B in
  flush_due m2 (timespec_diff (next_target m clock) now) = true
  <-> (tv_sec clock * 10 ^ 9 + tv_nsec clock + interval < tv_sec now * 10 ^ 9 + tv_nsec now
       /\ mouse.update m2 > -1)
      \/ mouse.force_update m2 <> 0.
Proof.
  intros H3 H4 [Cn Cs] Cs1 [Nn Ns]. cbv zeta. unfold next_target.
  assert (G : forall d, 0 <= d < 10 ^ 9 ->
            tv_sec (timespec_diff (get_target_time d clock) now) < 0
            <-> tv_sec clock * 10 ^ 9 + tv_nsec clock + d < tv_sec now * 10 ^ 9 + tv_nsec now).
  { intros d Hd. unfold get_target_time, to_uint32, NS_FULL_SECOND.
    rewrite (Z.mod_small (tv_nsec clock)), (Z.mod_small d) by lia.
    rewrite wrap_long_small by lia. rewrite Z.rem_mod_nonneg by lia.
    assert (Q : ((tv_nsec clock + d) mod 1000000000 = tv_nsec clock + d
                 /\ tv_nsec clock + d < 10 ^ 9)
                \/ ((tv_nsec clock + d) mod 1000000000 = tv_nsec clock + d - 10 ^ 9
                    /\ 10 ^ 9 <= tv_nsec clock + d)).
    { destruct (Z.lt_ge_cases (tv_nsec clock + d) (10 ^ 9)).
      - left. split; [apply Z.mod_small; lia | lia].
      - right. split; [symmetry; apply (Z.mod_unique _ _ 1); lia | lia]. }
    destruct Q as [[-> Q] | [-> Q]];
      match goal with
      | |- context [if ?a <? ?b then _ else _] => destruct (Z.ltb_spec a b); try lia
      end;
      unfold timespec_diff, NS_FULL_SECOND; cbn [tv_sec tv_nsec];
      rewrite ?(wrap_long_small (tv_sec clock + 1)) by lia;
      match goal with
      | |- context [wrap_long (?a - tv_sec now)] =>
          rewrite (wrap_long_small (a - tv_sec now)) by lia
      end;
      match goal with
      | |- context [wrap_long (?a - tv_nsec now)] =>
          rewrite (wrap_long_small (a - tv_nsec now)) by lia
      end;
      match goal with
      | |- context [if ?a <? ?b then _ else _] => destruct (Z.ltb_spec a b)
      end; cbn [tv_sec tv_nsec]; rewrite ?wrap_long_small by lia; lia. }
  unfold flush_due, truthy.
  set (dl := if negb (mouse.mmb m =? 0)
             then get_target_time SERIALDELAY_4B clock
             else get_target_time SERIALDELAY_3B clock).
  assert (G' : tv_sec (timespec_diff dl now) < 0
               <-> tv_sec clock * 10 ^ 9 + tv_nsec clock
                   + (if negb (mouse.mmb m =? 0) then SERIALDELAY_4B else SERIALDELAY_3B)
                   < tv_sec now * 10 ^ 9 + tv_nsec now).
  { subst dl. destruct (mouse.mmb m =? 0); cbn [negb]; auto. }
  clear G. revert G'. generalize (tv_sec (timespec_diff dl now)). intros s G'.
  destruct (Z.ltb_spec s 0), (Z.ltb_spec (-1) (mouse.update m2)),
    (Z.eqb_spec (mouse.force_update m2) 0); cbn;
    split; intros; try discriminate; try reflexivity; try lia; try tauto;
    try (left; split; [apply G'; assumption | lia]);
    repeat match goal with
           | H : _ \/ _ |- _ => destruct H
           | H : _ /\ _ |- _ => destruct H
           end; try lia; try contradiction.
  all: try (apply G' in H1; lia).
Qed.

End Protocol.

(** ** The identification routine *)

(** What [mouse_ident] writes, whenever it gets to write. *)
Lemma mouse_ident_bytes (reads : list (option Z)) (wheel_enabled immediate : Z) :
  match mouse_ident reads wheel_enabled immediate with
  | Some (bytes, _) =>
      bytes = if truthy wheel_enabled then [0x4D; 0x5A; 0x00] else [0x4D]
  | None => truthy immediate = false
  end.
Proof.
  unfold mouse_ident. destruct (truthy immediate).
  - destruct (truthy wheel_enabled); reflexivity.
  - destruct (wait_pin_state reads _ 0) as [reads1 |]; [| reflexivity].
    destruct (wait_pin_state reads1 _ 1) as [reads2 |]; [| reflexivity].
    destruct (truthy wheel_enabled); reflexivity.
Qed.

(** In immediate mode the routine always returns. *)
Lemma mouse_ident_immediate (reads : list (option Z)) (wheel_enabled immediate : Z) :
  immediate <> 0 ->
  mouse_ident reads wheel_enabled immediate
  = Some (if truthy wheel_enabled then [0x4D; 0x5A; 0x00] else [0x4D], reads).
Proof.
  intros H. unfold mouse_ident, truthy.
  destruct (Z.eqb_spec immediate 0); [contradiction |].
  destruct (negb (wheel_enabled =? 0)); reflexivity.
Qed.

(** In deferred mode it returns once both lines have been seen low and CTS
    has been seen high afterwards. *)
Lemma mouse_ident_deferred_example :
  mouse_ident [Some (Z.lor TIOCM_CTS TIOCM_DSR); Some 0; Some 0; Some TIOCM_CTS; Some 0] 0 0
  = Some ([0x4D], [Some 0]).
Proof. reflexivity. Qed.

(** C6. With the wheel enabled, [mouse_ident] writes the three bytes of the
    array [pkt_intellimouse_intro], 0x4D 0x5A 0x00: the two announced ones
    and the terminating zero that [sizeof] counts; with the wheel disabled
    it writes the single byte 0x4D. *)
Theorem mouse_ident_wheel_writes_three_bytes (reads : list (option Z)) :
  mouse_ident reads 1 1 = Some ([0x4D; 0x5A; 0x00], reads)
  /\ mouse_ident reads 0 1 = Some ([0x4D], reads)
  /\ sizeof pkt_intellimouse_intro = 3.
Proof. repeat split. Qed.

(** ** The control lines *)

Lemma nonzero_has_bit (a : Z) : a <> 0 <-> exists i, Z.testbit a i = true.
Proof.
  split.
  - intros Ha. destruct (Z.lt_trichotomy a 0) as [Hneg | [H0 | Hpos]]; [| contradiction |].
    + exists (Z.log2 (Z.abs a) + 1). apply Z.bits_iff_neg; lia.
    + exists (Z.log2 a). apply Z.bit_log2. lia.
  - intros [i Hi] ->. rewrite Z.bits_0 in Hi. discriminate.
Qed.

(** C7, as the code has it. [get_pin] returns 1 exactly when at least one
    bit of the mask is set in the register and 0 exactly when none is, and
    it returns -1 when the query fails. *)
Theorem get_pin_any_bit (serial_state flag : Z) :
  (get_pin (Some serial_state) flag = 1
   <-> exists i, Z.testbit serial_state i = true /\ Z.testbit flag i = true)
  /\ (get_pin (Some serial_state) flag = 0
      <-> forall i, Z.testbit flag i = true -> Z.testbit serial_state i = false)
  /\ get_pin None flag = -1.
Proof.
  unfold get_pin, truthy.
  destruct (Z.eqb_spec (Z.land serial_state flag) 0) as [E | E]; cbn [negb];
    (split; [| split; [| reflexivity]]); split; try discriminate; try reflexivity.
  - intros [i [H1 H2]]. exfalso.
    assert (B : Z.testbit (Z.land serial_state flag) i = true)
      by (rewrite Z.land_spec, H1, H2; reflexivity).
    rewrite E, Z.bits_0 in B. discriminate.
  - intros _ i Hi.
    assert (B : Z.testbit (Z.land serial_state flag) i = false) by (rewrite E; apply Z.bits_0).
    rewrite Z.land_spec, Hi, andb_true_r in B. exact B.
  - intros _. apply nonzero_has_bit in E. destruct E as [i Hi].
    rewrite Z.land_spec in Hi. apply andb_true_iff in Hi. eauto.
  - intros H. exfalso. apply E. apply Z.bits_inj_0. intros i.
    rewrite Z.land_spec. destruct (Z.testbit flag i) eqn:F.
    + rewrite (H i F). reflexivity.
    + apply andb_false_r.
Qed.

(** C7, as stated, fails: with CTS high and DSR low the query for the mask
    CTS|DSR answers 1 although not all bits of the mask are set. *)
Lemma get_pin_all_bits_counterexample :
  get_pin (Some TIOCM_CTS) (Z.lor TIOCM_CTS TIOCM_DSR) = 1
  /\ Z.land TIOCM_CTS (Z.lor TIOCM_CTS TIOCM_DSR) <> Z.lor TIOCM_CTS TIOCM_DSR.
Proof. split; [reflexivity | discriminate]. Qed.

(** ** The command line *)

Lemma parse_opts_loop_last (argv0 : string) (gs : list getopt_result) (r : getopt_result)
    (o0 : options.opts) (out0 : list (stream * text)) (o : options.opts)
    (out : list (stream * text)) :
  parse_opts_loop argv0 (gs ++ [r]) o0 out0 = Return o out ->
  options.wheel o = (if Ascii.eqb (opt r) "w" then 0 else 1)
  /\ options.exclusive o = (if Ascii.eqb (opt r) "e" then 0 else 1).
Proof.
  revert o0 out0. induction gs as [| g gs IH]; intros o0 out0.
  - destruct r as [c a]. cbn [app parse_opts_loop opt optarg].
    destruct (Ascii.eqb_spec c "m") as [-> | Nm]; [intros [= <- <-]; split; reflexivity |].
    destruct (Ascii.eqb_spec c "s") as [-> | Ns]; [intros [= <- <-]; split; reflexivity |].
    destruct (Ascii.eqb_spec c "h") as [-> | Nh]; [discriminate |].
    destruct (Ascii.eqb_spec c "w") as [-> | Nw]; [intros [= <- <-]; split; reflexivity |].
    destruct (Ascii.eqb_spec c "e") as [-> | Ne]; [intros [= <- <-]; split; reflexivity |].
    destruct (Ascii.eqb_spec c "i") as [-> | Ni]; [intros [= <- <-]; split; reflexivity |].
    destruct (Ascii.eqb_spec c "d"); intros [= <- <-]; split; reflexivity.
  - rewrite <- app_comm_cons. cbn [parse_opts_loop].
    repeat match goal with
           | |- context [if Ascii.eqb (opt g) ?c then _ else _] =>
               destruct (Ascii.eqb (opt g) c); [first [discriminate | apply IH] |]
           end.
    apply IH.
Qed.

(** C10. The option loop assigns wheel = 1 and exclusive = 1 at the start of
    every pass, so after the loop the wheel is disabled exactly when the
    last option parsed is -w, and exclusive access exactly when it is -e:
    a -w or -e followed by any other option is overwritten back to
    enabled. *)
Theorem parse_opts_flags_last_option_only (argv0 : string) (before : list getopt_result)
    (last : getopt_result) (o0 o : options.opts) (out0 out : list (stream * text)) :
  parse_opts_loop argv0 (before ++ [last]) o0 out0 = Return o out ->
  (options.wheel o = 0 <-> opt last = "w"%char)
  /\ (options.wheel o = 1 <-> opt last <> "w"%char)
  /\ (options.exclusive o = 0 <-> opt last = "e"%char)
  /\ (options.exclusive o = 1 <-> opt last <> "e"%char).
Proof.
  intros H. apply parse_opts_loop_last in H. destruct H as [Hw He].
  rewrite Hw, He.
  destruct (Ascii.eqb_spec (opt last) "w"), (Ascii.eqb_spec (opt last) "e");
    repeat split; intros; try congruence; try lia; try contradiction.
Qed.

(** Without -h the loop runs to its end. *)
Lemma parse_opts_loop_returns (argv0 : string) (gs : list getopt_result)
    (o0 : options.opts) (out0 : list (stream * text)) :
  Forall (fun g => opt g <> "h"%char) gs ->
  exists o out, parse_opts_loop argv0 gs o0 out0 = Return o out.
Proof.
  intros H. revert o0 out0. induction H as [| g gs Hg _ IH]; intros o0 out0.
  - cbn. eauto.
  - cbn [parse_opts_loop].
    destruct (Ascii.eqb_spec (opt g) "h") as [E | _]; [contradiction |].
    repeat match goal with
           | |- context [if Ascii.eqb (opt g) ?c then _ else _] =>
               destruct (Ascii.eqb (opt g) c); [apply IH |]
           end.
    apply IH.
Qed.

(** C8, as the code has it. When the option loop is over and a required path
    is still NULL, [parse_opts] does not return to [main]: it ends the
    process after writing to the error stream, after whatever the loop
    printed, one line per missing path naming the option to give; the usage
    text is not among them. *)
Theorem parse_opts_missing_path_exits (argv0 : string) (gs : list getopt_result)
    (o0 o : options.opts) (out : list (stream * text)) :
  parse_opts_loop argv0 gs o0 [] = Return o out ->
  options.mousepath o = None \/ options.serialpath o = None ->
  let said := missing_path_messages o in
  (exists status, parse_opts argv0 gs o0 = Exit status (out ++ said))
  /\ said <> []
  /\ Forall (fun p => p.1 = Stderr /\ forall a, p.2 <> Usage a) said
  /\ (In (Stderr, Line need_mousepath) said <-> options.mousepath o = None)
  /\ (In (Stderr, Line need_serialpath) said <-> options.serialpath o = None).
Proof.
  intros Hloop Hmiss. cbv zeta.
  unfold parse_opts, check_paths, missing_path_messages. rewrite Hloop.
  destruct (options.mousepath o) as [mp |], (options.serialpath o) as [sp |];
    cbn [truthy Z.eqb negb app]; rewrite <- ?app_assoc; cbn [app].
  - destruct Hmiss; discriminate.
  - split; [eauto |]. split; [discriminate |]. split.
    { repeat constructor; cbn; discriminate. }
    cbn [In]. split; split; intros; try discriminate; auto.
    destruct H as [H | []]. inversion H.
  - split; [eauto |]. split; [discriminate |]. split.
    { repeat constructor; cbn; discriminate. }
    cbn [In]. split; split; intros; try discriminate; auto.
    destruct H as [H | []]. inversion H.
  - split; [eauto |]. split; [discriminate |]. split.
    { repeat constructor; cbn; discriminate. }
    cbn [In]. split; split; intros; auto.
Qed.

(** [main] gets past [parse_opts] only with both paths set. *)
Lemma main_startup_has_paths (argc : Z) (argv0 : string) (gs : list getopt_result)
    (o : options.opts) (out : list (stream * text)) :
  main_startup argc argv0 gs = Return o out ->
  options.mousepath o <> None /\ options.serialpath o <> None.
Proof.
  unfold main_startup, parse_opts, check_paths.
  destruct (argc <? 2); [discriminate |].
  destruct (parse_opts_loop argv0 gs options.calloc []) as [st out' | o' out']; [discriminate |].
  destruct (options.mousepath o') eqn:M, (options.serialpath o') eqn:S;
    cbn; intros [= <- <-]; try discriminate.
  rewrite M, S. split; discriminate.
Qed.

(** C8, as stated, fails: with -m given and -s missing, the process ends
    with status 0 and the error stream holds the line about -s, not the
    usage text. *)
Lemma parse_opts_missing_path_counterexample :
  parse_opts "amouse" [mk_getopt "m" (Some "/dev/input/event0")] options.calloc
  = Exit 0 [(Stderr, Line need_serialpath)]
  /\ ~ (exists status out,
         parse_opts "amouse" [mk_getopt "m" (Some "/dev/input/event0")] options.calloc
         = Exit status out
         /\ status <> 0 /\ In (Stderr, Usage "amouse") out).
Proof.
  split; [reflexivity |].
  intros (status & out & H & Hs & Hu). cbv in H. injection H as <- <-.
  apply Hs. reflexivity.
Qed.

(** ** The pending length across passes *)

(** C1, at a failing input. Host lines high, wheel enabled, no button held.
    A wheel tick arrives before the deadline: the pass ends with a 4-byte
    update pending (mouse.update = 3) and nothing sent.  The next pass
    starts by setting mouse.update back to -1 although no flush took place:
    an idle pass leaves it at -1, and a pass that gets an X motion after the
    deadline raises it to 2 only and flushes three bytes, so the wheel tick
    (byte 3) is never sent and the accumulator is cleared. *)
Theorem pending_length_dropped_between_passes
    (MOUSE_LMB_BIT MOUSE_RMB_BIT MOUSE_MMB_BIT SERIALDELAY_3B SERIALDELAY_4B : Z) :
  let pass := loop_iteration MOUSE_LMB_BIT MOUSE_RMB_BIT MOUSE_MMB_BIT
                SERIALDELAY_3B SERIALDELAY_4B
                (options.mk (Some "/dev/input/event0") (Some "/dev/ttyS0") 1 1 0 0) in
  let lines_high := Some (Z.lor TIOCM_CTS TIOCM_DSR) in
  let m0 := mouse.mk 0 [0x40; 0x00; 0x00; 0x00] 0 0 0 (-1) 0 0 0 0 in
  let m1 := mouse.mk 0 [0x40; 0x00; 0x00; 0x00] 0 0 1 3 0 0 0 0 in
  let target := mk_timespec 10 0 in
  let early := mk_timespec 9 0 in
  let late := mk_timespec 11 0 in
  let wheel_tick := mk_input lines_high [] (Some (ev.mk EV_REL REL_WHEEL 1)) early early in
  let idle := mk_input lines_high [] None early early in
  let move := mk_input lines_high [] (Some (ev.mk EV_REL REL_X 1)) late late in
  pass m0 target wheel_tick = Some (m1, target, [])
  /\ mouse.update m1 = 3
  /\ pass m1 target idle = Some (mouse.set_update (-1) m1, target, [])
  /\ (exists target',
       pass m1 target move = Some (m0, target', [Packet [0x40; 0x01; 0x00]]))
  /\ (exists target',
       run MOUSE_LMB_BIT MOUSE_RMB_BIT MOUSE_MMB_BIT SERIALDELAY_3B SERIALDELAY_4B
         (options.mk (Some "/dev/input/event0") (Some "/dev/ttyS0") 1 1 0 0)
         m0 target [wheel_tick; move]
       = Some (m0, target', [Packet [0x40; 0x01; 0x00]])).
Proof.
  cbv zeta.
  match goal with
  | |- ?a = ?b /\ _ /\ _ /\ (exists t, ?c = _) /\ _ =>
      assert (H1 : a = b) by reflexivity;
      assert (H2 : exists t, c = Some (mouse.mk 0 [0x40; 0x00; 0x00; 0x00] 0 0 0 (-1) 0 0 0 0,
                                       t, [Packet [0x40; 0x01; 0x00]]))
  end.
  { eexists. cbv -[Z.shiftl wrap_int to_uint8 Z.lor get_target_time].
    rewrite !Z.shiftl_0_l. reflexivity. }
  split; [exact H1 |]. split; [reflexivity |]. split; [reflexivity |].
  split; [exact H2 |].
  destruct H2 as [t H2]. exists t.
  cbn [run]. rewrite H1, H2. reflexivity.
Qed.

(** ** Instances *)

(** C2 at x = 5, y = -3, left button down, with the buttons at bits 5 and 4:
    the packet starts 0x6c, 5, 61. *)
Lemma encode_motion_bytes_witness :
  let m := mouse.mk 0 [0x40; 0x00; 0x00; 0x00] 5 (-3) 0 2 1 0 0 1 in
  exists b0 b3 : Z,
    mouse.state (encode 5 4 4 m) = [b0; Z.land 5 0x3f; Z.land (-3) 0x3f; b3]
    /\ b0 = 0x6c
    /\ Z.land b0 0x03 = 0
    /\ Z.shiftr (Z.land b0 0x0c) 2 = 3
    /\ 0 = (5 mod 2 ^ 8) / 2 ^ 6
    /\ 3 = (-3 mod 2 ^ 8) / 2 ^ 6.
Proof.
  exact (encode_motion_bytes 5 4 4
           (mouse.mk 0 [0x40; 0x00; 0x00; 0x00] 5 (-3) 0 2 1 0 0 1)
           eq_refl ltac:(lia) ltac:(lia)).
Defined.

(** C3 at wheel = 3 and wheel = -3, with the middle button at bit 4: the
    nibbles are 13 and 3. *)
Lemma encode_wheel_nibble_witness :
  (exists b3 : Z,
     mouse.state (encode 5 4 4 (mouse.mk 0 [0x40; 0x00; 0x00; 0x00] 0 0 3 3 0 0 1 0))
       !! 3%nat = Some b3
     /\ Z.land b3 0x0f = 13 /\ Z.land b3 0x0f = 13)
  /\ (exists b3 : Z,
        mouse.state (encode 5 4 4 (mouse.mk 0 [0x40; 0x00; 0x00; 0x00] 0 0 (-3) 3 0 0 0 0))
          !! 3%nat = Some b3
        /\ Z.land b3 0x0f = 3 /\ Z.land b3 0x0f = 3).
Proof.
  split.
  - exact (encode_wheel_nibble 5 4 4
             (mouse.mk 0 [0x40; 0x00; 0x00; 0x00] 0 0 3 3 0 0 1 0)
             eq_refl ltac:(lia) ltac:(cbn; lia)).
  - exact (encode_wheel_nibble 5 4 4
             (mouse.mk 0 [0x40; 0x00; 0x00; 0x00] 0 0 (-3) 3 0 0 0 0)
             eq_refl ltac:(lia) ltac:(cbn; lia)).
Defined.

(** C9 at 5.000000100 s minus 3.900000000 s: one second is borrowed and the
    result is 1.100000100 s. *)
Lemma timespec_diff_exact_witness :
  normalized (mk_timespec 5 100) /\ normalized (mk_timespec 3 900000000)
  /\ timespec_diff (mk_timespec 5 100) (mk_timespec 3 900000000)
     = mk_timespec 1 100000100
  /\ 0 <= 100000100 < 10 ^ 9
  /\ 1 * 10 ^ 9 + 100000100 = (5 * 10 ^ 9 + 100) - (3 * 10 ^ 9 + 900000000).
Proof.
  assert (N1 : normalized (mk_timespec 5 100)) by (unfold normalized; cbn; lia).
  assert (N2 : normalized (mk_timespec 3 900000000)) by (unfold normalized; cbn; lia).
  split; [exact N1 |]. split; [exact N2 |]. split; [reflexivity |].
  destruct (timespec_diff_exact _ _ N1 N2) as (R & _ & E).
  split; [exact R | exact E].
Defined.

(** C10 at the command line -w -m /dev/input/event0: the wheel is enabled
    again once -m has been parsed. *)
Lemma parse_opts_flags_last_option_only_witness :
  let o := options.mk (Some "/dev/input/event0") None 1 1 0 0 in
  parse_opts_loop "amouse"
    ([mk_getopt "w" None] ++ [mk_getopt "m" (Some "/dev/input/event0")])
    options.calloc [] = Return o []
  /\ options.wheel o = 1.
Proof.
  cbv zeta. split; [reflexivity |].
  apply (parse_opts_flags_last_option_only "amouse" [mk_getopt "w" None]
           (mk_getopt "m" (Some "/dev/input/event0")) options.calloc _ [] []
           eq_refl).
  cbn. discriminate.
Defined.

(** C8 at the command line -m /dev/input/event0: the process ends inside
    [parse_opts] with the line about -s on the error stream. *)
Lemma parse_opts_missing_path_exits_witness :
  let o := options.mk (Some "/dev/input/event0") None 1 1 0 0 in
  parse_opts_loop "amouse" [mk_getopt "m" (Some "/dev/input/event0")] options.calloc []
  = Return o []
  /\ options.serialpath o = None
  /\ exists status,
       parse_opts "amouse" [mk_getopt "m" (Some "/dev/input/event0")] options.calloc
       = Exit status [(Stderr, Line need_serialpath)].
Proof.
  cbv zeta. split; [reflexivity |]. split; [reflexivity |].
  exact (proj1 (parse_opts_missing_path_exits "amouse"
                  [mk_getopt "m" (Some "/dev/input/event0")] options.calloc
                  (options.mk (Some "/dev/input/event0") None 1 1 0 0) []
                  eq_refl (or_intror eq_refl))).
Defined.

(** * Further properties of the code *)

(** ** include/utils.c *)

(** X1. With ordered bounds [clamp] returns a value within the bounds, which
    is the argument itself exactly when the argument is within them, and
    clamping twice changes nothing. *)
Theorem clamp_ordered_bounds (value min max : Z) :
  min <= max ->
  min <= clamp value min max <= max
  /\ (clamp value min max = value <-> min <= value <= max)
  /\ clamp value min max = Z.max min (Z.min value max)
  /\ clamp (clamp value min max) min max = clamp value min max.
Proof.
  intros H. unfold clamp.
  destruct (Z.ltb_spec max value), (Z.ltb_spec value min);
    repeat match goal with
           | |- context [?a <? ?b] => destruct (Z.ltb_spec a b)
           end; lia.
Qed.

(** X2. With the bounds the wrong way round ([max < min]) [clamp] never
    returns a value strictly between them and never the argument unless it
    is one of the bounds: above [max] it returns [max], otherwise [min]. *)
Theorem clamp_inverted_bounds (value min max : Z) :
  max < min ->
  clamp value min max = (if max <? value then max else min).
Proof.
  intros H. unfold clamp.
  destruct (Z.ltb_spec max value), (Z.ltb_spec value min); lia.
Qed.

Lemma byte_to_bitstring_bytes (a0 a1 a2 a3 a4 a5 a6 a7 a8 val : Z) :
  byte_to_bitstring [a0; a1; a2; a3; a4; a5; a6; a7; a8] val
  = [ 0x30 + Z.land (Z.shiftr (to_uint8 val) 7) 1;
      0x30 + Z.land (Z.shiftr (to_uint8 val) 6) 1;
      0x30 + Z.land (Z.shiftr (to_uint8 val) 5) 1;
      0x30 + Z.land (Z.shiftr (to_uint8 val) 4) 1;
      0x30 + Z.land (Z.shiftr (to_uint8 val) 3) 1;
      0x30 + Z.land (Z.shiftr (to_uint8 val) 2) 1;
      0x30 + Z.land (Z.shiftr (to_uint8 val) 1) 1;
      0x30 + Z.land (Z.shiftr (to_uint8 val) 0) 1;
      a8 ].
Proof. reflexivity. Qed.

(** A property checked on each of 0 .. 255 holds of every byte. *)
Lemma every_byte (P : Z -> bool) :
  forallb P (map Z.of_nat (seq 0 256)) = true ->
  forall v, 0 <= v < 256 -> P v = true.
Proof.
  intros H v Hv. rewrite forallb_forall in H. apply H.
  apply in_map_iff. exists (Z.to_nat v). split; [lia |].
  apply in_seq. lia.
Qed.

(** X3. Whatever the static buffer held, [byte_to_bitstring] leaves in it
    eight characters '0' or '1' followed by the untouched ninth byte, and
    the eight characters are the binary digits of the byte, most significant
    first: reading them back in base 2 gives the byte. *)
Theorem byte_to_bitstring_digits (buffer : list Z) (val : Z) :
  length buffer = 9%nat ->
  let r := byte_to_bitstring buffer val in
  length r = 9%nat
  /\ Forall (fun c => c = 0x30 \/ c = 0x31) (take 8 r)
  /\ r !! 8%nat = buffer !! 8%nat
  /\ foldl (fun acc c => 2 * acc + (c - 0x30)) 0 (take 8 r) = to_uint8 val.
Proof.
  intros Hlen.
  do 9 (destruct buffer as [| ? buffer]; [discriminate |]).
  destruct buffer; [| discriminate].
  cbv zeta. rewrite byte_to_bitstring_bytes.
  assert (Hv : 0 <= to_uint8 val < 256) by (apply Z.mod_pos_bound; lia).
  generalize dependent (to_uint8 val). intros v Hv.
  split; [reflexivity |]. cbn [take lookup list_lookup].
  pose (P := fun v =>
    forallb (fun c => (c =? 0x30) || (c =? 0x31))
      [ 0x30 + Z.land (Z.shiftr v 7) 1; 0x30 + Z.land (Z.shiftr v 6) 1;
        0x30 + Z.land (Z.shiftr v 5) 1; 0x30 + Z.land (Z.shiftr v 4) 1;
        0x30 + Z.land (Z.shiftr v 3) 1; 0x30 + Z.land (Z.shiftr v 2) 1;
        0x30 + Z.land (Z.shiftr v 1) 1; 0x30 + Z.land (Z.shiftr v 0) 1 ]
    && (foldl (fun acc c => 2 * acc + (c - 0x30)) 0
      [ 0x30 + Z.land (Z.shiftr v 7) 1; 0x30 + Z.land (Z.shiftr v 6) 1;
        0x30 + Z.land (Z.shiftr v 5) 1; 0x30 + Z.land (Z.shiftr v 4) 1;
        0x30 + Z.land (Z.shiftr v 3) 1; 0x30 + Z.land (Z.shiftr v 2) 1;
        0x30 + Z.land (Z.shiftr v 1) 1; 0x30 + Z.land (Z.shiftr v 0) 1 ] =? v)).
  assert (HP : P v = true) by (apply every_byte; [vm_compute; reflexivity | exact Hv]).
  unfold P in HP. apply andb_true_iff in HP. destruct HP as [H1 H2].
  split; [| split; [reflexivity | apply Z.eqb_eq; exact H2]].
  rewrite forallb_forall in H1. apply Forall_forall. intros c Hc.
  apply list_elem_of_In in Hc. specialize (H1 c Hc).
  apply orb_true_iff in H1. destruct H1 as [H1 | H1]; apply Z.eqb_eq in H1; auto.
Qed.

(** X3, on the first call and as a C string: the string returned for the
    byte 0xA5. *)
Lemma byte_to_bitstring_digits_witness :
  length static_buffer = 9%nat
  /\ c_string (byte_to_bitstring static_buffer 0xA5)
     = [0x31; 0x30; 0x31; 0x30; 0x30; 0x31; 0x30; 0x31]
  /\ foldl (fun acc c => 2 * acc + (c - 0x30)) 0
       (take 8 (byte_to_bitstring static_buffer 0xA5)) = to_uint8 0xA5.
Proof.
  split; [reflexivity |]. split; [reflexivity |].
  exact (proj2 (proj2 (proj2 (byte_to_bitstring_digits static_buffer 0xA5 eq_refl)))).
Defined.

Lemma clamp_ordered_bounds_witness :
  -127 <= 127
  /\ clamp 300 (-127) 127 = 127 /\ clamp (-128) (-127) 127 = -127 /\ clamp 5 (-127) 127 = 5
  /\ -127 <= clamp 300 (-127) 127 <= 127.
Proof.
  split; [lia |]. split; [reflexivity |]. split; [reflexivity |]. split; [reflexivity |].
  exact (proj1 (clamp_ordered_bounds 300 (-127) 127 ltac:(lia))).
Defined.

Lemma clamp_inverted_bounds_witness :
  3 < 10 /\ clamp 5 10 3 = 3 /\ clamp 2 10 3 = 10.
Proof.
  split; [lia |].
  split; [exact (clamp_inverted_bounds 5 10 3 ltac:(lia))
         | exact (clamp_inverted_bounds 2 10 3 ltac:(lia))].
Defined.

(** ** include/serial.c *)

(** X4. For a size within the array, [serial_write] puts on the line the
    first [size] bytes of the buffer, in their order, and returns [size];
    for a size of zero or less it writes nothing and returns 0. *)
Theorem serial_write_prefix (buffer : list Z) (size : Z) :
  size <= sizeof buffer ->
  serial_write buffer size = (take (Z.to_nat size) buffer, Z.max 0 size)
  /\ (0 <= size -> length (serial_write buffer size).1 = Z.to_nat size
                   /\ (serial_write buffer size).2 = size)
  /\ (size <= 0 -> serial_write buffer size = ([], 0)).
Proof.
  intros H. unfold sizeof in H. unfold serial_write.
  rewrite write_loop_take by lia. rewrite drop_0.
  split; [reflexivity |]. split.
  - intros H0. cbn [fst snd]. rewrite length_take. split; lia.
  - intros H0. replace (Z.to_nat size) with 0%nat by lia.
    replace (Z.max 0 size) with 0 by lia. reflexivity.
Qed.

Lemma serial_write_prefix_witness :
  2 <= sizeof [0x4D; 0x5A; 0x00]
  /\ serial_write [0x4D; 0x5A; 0x00] 2 = ([0x4D; 0x5A], 2).
Proof.
  split; [unfold sizeof; cbn; lia |].
  exact (proj1 (serial_write_prefix [0x4D; 0x5A; 0x00] 2 ltac:(unfold sizeof; cbn; lia))).
Defined.

(** The polling loop, split at the first reading that shows the wanted
    state. *)
Lemma wait_pin_loop_spec (reads : list (option Z)) (flag desired_state : Z) :
  match wait_pin_loop reads flag desired_state with
  | Some rest =>
      exists skipped r,
        reads = skipped ++ r :: rest
        /\ get_pin r flag = desired_state
        /\ Forall (fun q => get_pin q flag <> desired_state) skipped
  | None => Forall (fun q => get_pin q flag <> desired_state) reads
  end.
Proof.
  induction reads as [| r reads IH]; cbn [wait_pin_loop].
  - constructor.
  - destruct (Z.eqb_spec (get_pin r flag) desired_state) as [E | N].
    + exists [], r. repeat split; [exact E | constructor].
    + destruct (wait_pin_loop reads flag desired_state) as [rest |].
      * destruct IH as (skipped & r' & -> & E & F).
        exists (r :: skipped), r'. repeat split; [exact E | constructor; assumption].
      * constructor; assumption.
Qed.

Lemma wait_pin_loop_first (skipped rest : list (option Z)) (r : option Z)
    (flag desired_state : Z) :
  Forall (fun q => get_pin q flag <> desired_state) skipped ->
  get_pin r flag = desired_state ->
  wait_pin_loop (skipped ++ r :: rest) flag desired_state = Some rest.
Proof.
  intros F E. induction F as [| q skipped Hq _ IH]; cbn [app wait_pin_loop].
  - destruct (Z.eqb_spec (get_pin r flag) desired_state); [reflexivity | contradiction].
  - destruct (Z.eqb_spec (get_pin q flag) desired_state); [contradiction | exact IH].
Qed.

(** X5. [wait_pin_state] for a state 0 or 1 returns exactly when a reading
    shows that state: it has then consumed that reading and, before it, only
    readings that do not show it; as long as no reading shows it the
    function keeps polling. *)
Theorem wait_pin_state_first_match (reads rest : list (option Z)) (flag desired_state : Z) :
  desired_state <> -1 ->
  (wait_pin_state reads flag desired_state = Some rest
   <-> exists skipped r,
         reads = skipped ++ r :: rest
         /\ get_pin r flag = desired_state
         /\ Forall (fun q => get_pin q flag <> desired_state) skipped)
  /\ (wait_pin_state reads flag desired_state = None
      <-> Forall (fun q => get_pin q flag <> desired_state) reads).
Proof.
  intros Hd. unfold wait_pin_state.
  destruct (Z.eqb_spec (-1) desired_state) as [E | _]; [congruence |].
  pose proof (wait_pin_loop_spec reads flag desired_state) as S.
  split; split.
  - intros H. rewrite H in S. exact S.
  - intros (skipped & r & -> & E & F). apply wait_pin_loop_first; assumption.
  - intros H. rewrite H in S. exact S.
  - intros F. destruct (wait_pin_loop reads flag desired_state) as [rest' |]; [| reflexivity].
    destruct S as (skipped & r & -> & E & _).
    rewrite Forall_app, Forall_cons in F. destruct F as [_ [N _]]. contradiction.
Qed.

Lemma wait_pin_state_first_match_witness :
  1 <> -1
  /\ wait_pin_state [Some 0; None; Some TIOCM_CTS; Some 0] TIOCM_CTS 1 = Some [Some 0].
Proof.
  split; [discriminate |].
  apply (proj1 (wait_pin_state_first_match _ [Some 0] TIOCM_CTS 1 ltac:(discriminate))).
  exists [Some 0; None], (Some TIOCM_CTS).
  split; [reflexivity |]. split; [reflexivity |].
  repeat constructor; discriminate.
Defined.

(** X6. A query that fails does not end the wait: when every TIOCMGET fails,
    [wait_pin_state] for the state 0 or 1 never returns, whatever the mask,
    and neither does [mouse_ident] in deferred mode, which then writes
    nothing. *)
Theorem failing_queries_never_end_wait (reads : list (option Z))
    (flag desired_state wheel_enabled : Z) :
  desired_state = 0 \/ desired_state = 1 ->
  Forall (fun q => q = None) reads ->
  wait_pin_state reads flag desired_state = None
  /\ mouse_ident reads wheel_enabled 0 = None.
Proof.
  intros Hd F.
  assert (W : forall fl d, d = 0 \/ d = 1 -> wait_pin_state reads fl d = None).
  { intros fl d Hd'. unfold wait_pin_state.
    destruct (Z.eqb_spec (-1) d) as [E | _]; [lia |].
    pose proof (wait_pin_loop_spec reads fl d) as S.
    destruct (wait_pin_loop reads fl d) as [rest |]; [| reflexivity].
    destruct S as (skipped & r & -> & E & _).
    rewrite Forall_app, Forall_cons in F. destruct F as [_ [-> _]].
    cbn in E. lia. }
  split; [apply W; exact Hd |].
  unfold mouse_ident. cbn [truthy Z.eqb negb]. rewrite W by lia. reflexivity.
Qed.

Lemma failing_queries_never_end_wait_witness :
  (0 = 0 \/ 0 = 1)
  /\ Forall (fun q : option Z => q = None) [None; None; None]
  /\ wait_pin_state [None; None; None] (Z.lor TIOCM_CTS TIOCM_DSR) 0 = None
  /\ mouse_ident [None; None; None] 1 0 = None.
Proof.
  assert (F : Forall (fun q : option Z => q = None) [None; None; None])
    by (repeat constructor).
  split; [left; reflexivity |]. split; [exact F |].
  exact (failing_queries_never_end_wait [None; None; None]
           (Z.lor TIOCM_CTS TIOCM_DSR) 0 1 (or_introl eq_refl) F).
Defined.

(** X7. In deferred mode [mouse_ident] writes only after the handshake, in
    its order: among the readings it consumed there is one with CTS and DSR
    both low and, after it, the last one consumed, with CTS high. *)
Theorem mouse_ident_after_handshake (reads rest : list (option Z))
    (wheel_enabled : Z) (bytes : list Z) :
  mouse_ident reads wheel_enabled 0 = Some (bytes, rest) ->
  exists before low between high,
    reads = before ++ Some low :: between ++ Some high :: rest
    /\ Z.land low TIOCM_CTS = 0 /\ Z.land low TIOCM_DSR = 0
    /\ Z.land high TIOCM_CTS <> 0.
Proof.
  unfold mouse_ident. cbn [truthy Z.eqb negb]. unfold wait_pin_state.
  cbn [Z.eqb].
  pose proof (wait_pin_loop_spec reads (Z.lor TIOCM_CTS TIOCM_DSR) 0) as S1.
  destruct (wait_pin_loop reads (Z.lor TIOCM_CTS TIOCM_DSR) 0) as [reads1 |]; [| discriminate].
  pose proof (wait_pin_loop_spec reads1 TIOCM_CTS 1) as S2.
  destruct (wait_pin_loop reads1 TIOCM_CTS 1) as [reads2 |]; [| discriminate].
  intros H.
  assert (reads2 = rest) as -> by (destruct (truthy wheel_enabled); congruence).
  destruct S1 as (before & r1 & -> & E1 & _).
  destruct S2 as (between & r2 & -> & E2 & _).
  destruct r1 as [low |]; [| discriminate]. destruct r2 as [high |]; [| discriminate].
  exists before, low, between, high. split; [reflexivity |].
  unfold get_pin, truthy in E1, E2.
  destruct (Z.eqb_spec (Z.land low (Z.lor TIOCM_CTS TIOCM_DSR)) 0) as [L |]; [| discriminate].
  destruct (Z.eqb_spec (Z.land high TIOCM_CTS) 0) as [| Hh]; [discriminate |].
  rewrite Z.land_lor_distr_r in L. apply Z.lor_eq_0_iff in L. tauto.
Qed.

Lemma mouse_ident_after_handshake_witness :
  mouse_ident [Some TIOCM_CTS; Some 0; Some TIOCM_DSR; Some TIOCM_CTS; None] 0 0
  = Some ([0x4D], [None])
  /\ exists before low between high,
       [Some TIOCM_CTS; Some 0; Some TIOCM_DSR; Some TIOCM_CTS; None]
       = before ++ Some low :: between ++ Some high :: [None]
       /\ Z.land low TIOCM_CTS = 0 /\ Z.land low TIOCM_DSR = 0
       /\ Z.land high TIOCM_CTS <> 0.
Proof.
  split; [reflexivity |].
  exact (mouse_ident_after_handshake
           [Some TIOCM_CTS; Some 0; Some TIOCM_DSR; Some TIOCM_CTS; None] [None] 0 [0x4D]
           eq_refl).
Defined.

(** X8. For a clock reading with its nanoseconds below one second and a
    delay below one second, [get_target_time] returns the instant exactly
    [delay] nanoseconds after the reading, with its nanoseconds below one
    second again. *)
Theorem get_target_time_exact (delay : Z) (time : timespec) :
  normalized time ->
  0 <= delay < 10 ^ 9 ->
  let r := get_target_time delay time in
  0 <= tv_nsec r < 10 ^ 9
  /\ tv_sec r * 10 ^ 9 + tv_nsec r = tv_sec time * 10 ^ 9 + tv_nsec time + delay.
Proof.
  intros [Hn Hs] Hd. unfold get_target_time, to_uint32, NS_FULL_SECOND.
  rewrite (Z.mod_small (tv_nsec time)), (Z.mod_small delay) by lia.
  rewrite wrap_long_small by lia. rewrite Z.rem_mod_nonneg by lia.
  destruct (Z.lt_ge_cases (tv_nsec time + delay) (10 ^ 9)) as [Hlt | Hge].
  - rewrite Z.mod_small by lia.
    destruct (Z.ltb_spec (tv_nsec time + delay) (tv_nsec time)); [lia |].
    cbn [tv_sec tv_nsec]. lia.
  - assert (E : (tv_nsec time + delay) mod 1000000000 = tv_nsec time + delay - 10 ^ 9).
    { symmetry. apply (Z.mod_unique _ _ 1); lia. }
    rewrite E.
    destruct (Z.ltb_spec (tv_nsec time + delay - 10 ^ 9) (tv_nsec time)); [| lia].
    cbn [tv_sec tv_nsec]. rewrite wrap_long_small by lia. lia.
Qed.

Lemma get_target_time_exact_witness :
  normalized (mk_timespec 7 999000000) /\ 0 <= 22000000 < 10 ^ 9
  /\ get_target_time 22000000 (mk_timespec 7 999000000) = mk_timespec 8 21000000
  /\ 8 * 10 ^ 9 + 21000000 = 7 * 10 ^ 9 + 999000000 + 22000000.
Proof.
  assert (N : normalized (mk_timespec 7 999000000)) by (unfold normalized; cbn; lia).
  split; [exact N |]. split; [lia |]. split; [reflexivity |].
  exact (proj2 (get_target_time_exact 22000000 (mk_timespec 7 999000000) N ltac:(lia))).
Defined.

(** X9. A delay of one second or more is not honoured: [get_target_time]
    carries at most one second, so the instant it returns is at least one
    whole second earlier than the reading plus the delay. *)
Theorem get_target_time_long_delay (delay : Z) (time : timespec) :
  normalized time ->
  10 ^ 9 <= delay < 2 ^ 32 ->
  let r := get_target_time delay time in
  tv_sec r <= tv_sec time + 1
  /\ tv_sec r * 10 ^ 9 + tv_nsec r + 10 ^ 9
     <= tv_sec time * 10 ^ 9 + tv_nsec time + delay.
Proof.
  intros [Hn Hs] Hd. unfold get_target_time, to_uint32, NS_FULL_SECOND.
  rewrite (Z.mod_small (tv_nsec time)), (Z.mod_small delay) by lia.
  rewrite wrap_long_small by lia. rewrite Z.rem_mod_nonneg by lia.
  pose proof (Z.div_mod (tv_nsec time + delay) 1000000000 ltac:(lia)) as D.
  pose proof (Z.mod_pos_bound (tv_nsec time + delay) 1000000000 ltac:(lia)) as B.
  assert (Q : 1 <= (tv_nsec time + delay) / 1000000000).
  { apply Z.div_le_lower_bound; lia. }
  destruct (Z.ltb_spec ((tv_nsec time + delay) mod 1000000000) (tv_nsec time)) as [C | C];
    cbn [tv_sec tv_nsec]; [rewrite wrap_long_small by lia |]; nia.
Qed.

(** X9 at a delay of exactly one second: the deadline is the reading
    itself. *)
Lemma get_target_time_long_delay_witness :
  normalized (mk_timespec 7 5) /\ 10 ^ 9 <= 10 ^ 9 < 2 ^ 32
  /\ get_target_time (10 ^ 9) (mk_timespec 7 5) = mk_timespec 7 5
  /\ 7 <= 7 + 1
  /\ 7 * 10 ^ 9 + 5 + 10 ^ 9 <= 7 * 10 ^ 9 + 5 + 10 ^ 9.
Proof.
  assert (N : normalized (mk_timespec 7 5)) by (unfold normalized; cbn; lia).
  split; [exact N |]. split; [lia |]. split; [reflexivity |].
  exact (get_target_time_long_delay (10 ^ 9) (mk_timespec 7 5) N ltac:(lia)).
Defined.

(** X10. The test of line 317 is exact: for two normalized timestamps the
    seconds field of [timespec_diff ts1 ts2] is negative exactly when the
    instant [ts1] is strictly earlier than [ts2], by a nanosecond or more. *)
Theorem timespec_diff_negative_iff_earlier (ts1 ts2 : timespec) :
  normalized ts1 -> normalized ts2 ->
  tv_sec (timespec_diff ts1 ts2) < 0
  <-> tv_sec ts1 * 10 ^ 9 + tv_nsec ts1 < tv_sec ts2 * 10 ^ 9 + tv_nsec ts2.
Proof.
  intros [Hn1 Hs1] [Hn2 Hs2]. unfold timespec_diff, NS_FULL_SECOND.
  rewrite (wrap_long_small (tv_sec ts1 - tv_sec ts2)) by lia.
  rewrite (wrap_long_small (tv_nsec ts1 - tv_nsec ts2)) by lia.
  destruct (Z.ltb_spec (tv_nsec ts1 - tv_nsec ts2) 0); cbn [tv_sec tv_nsec].
  - rewrite wrap_long_small by lia. lia.
  - lia.
Qed.

Lemma timespec_diff_negative_iff_earlier_witness :
  normalized (mk_timespec 10 0) /\ normalized (mk_timespec 10 1)
  /\ tv_sec (timespec_diff (mk_timespec 10 0) (mk_timespec 10 1)) < 0.
Proof.
  assert (N1 : normalized (mk_timespec 10 0)) by (unfold normalized; cbn; lia).
  assert (N2 : normalized (mk_timespec 10 1)) by (unfold normalized; cbn; lia).
  split; [exact N1 |]. split; [exact N2 |].
  apply (timespec_diff_negative_iff_earlier _ _ N1 N2). cbn. lia.
Defined.

Ltac tty_bits :=
  apply Z.bits_inj'; intros i Hi;
  repeat first [ rewrite Z.land_spec | rewrite Z.lor_spec
               | rewrite Z.lnot_spec by lia | rewrite Z.pow2_bits_eqb by lia
               | rewrite Z.bits_0 ];
  repeat match goal with
         | |- context [?a =? i] => destruct (Z.eqb_spec a i); [subst i |]
         end;
  cbn [negb andb orb]; rewrite ?andb_true_r, ?andb_false_r, ?orb_false_r, ?orb_true_r;
  try reflexivity; try lia.

(** X11. Whatever the flags were before, [setup_tty] hands tcsetattr a
    [c_cflag] with parity off, one stop bit, a character size of seven
    bits, hardware flow control off, the receiver on and the modem lines
    ignored; no other bit of [c_cflag] (the speed among them) and no other
    flag word is changed, VMIN is 1 and VTIME is 5, and the function returns
    -1 exactly when tcsetattr fails. *)
Theorem setup_tty_7n1 (tty : termios) (tcsetattr_result : Z) :
  let tty' := (setup_tty tty tcsetattr_result).1 in
  let rc := (setup_tty tty tcsetattr_result).2 in
  Z.land (c_cflag tty') PARENB = 0
  /\ Z.land (c_cflag tty') CSTOPB = 0
  /\ Z.land (c_cflag tty') CSIZE = CS7
  /\ Z.land (c_cflag tty') CRTSCTS = 0
  /\ Z.land (c_cflag tty') CREAD = CREAD
  /\ Z.land (c_cflag tty') CLOCAL = CLOCAL
  /\ (forall i, 0 <= i -> ~ In i [4; 5; 6; 7; 8; 11; 31] ->
        Z.testbit (c_cflag tty') i = Z.testbit (c_cflag tty) i)
  /\ c_iflag tty' = c_iflag tty /\ c_oflag tty' = c_oflag tty /\ c_lflag tty' = c_lflag tty
  /\ ((VMIN < length (c_cc tty))%nat ->
        c_cc tty' !! VMIN = Some 1 /\ c_cc tty' !! VTIME = Some 5
        /\ forall k, k <> VMIN -> k <> VTIME -> c_cc tty' !! k = c_cc tty !! k)
  /\ (rc = 0 <-> tcsetattr_result = 0)
  /\ (rc = -1 <-> tcsetattr_result <> 0).
Proof.
  cbv zeta. unfold setup_tty. cbn [fst snd c_cflag c_iflag c_oflag c_lflag c_cc].
  change PARENB with (2 ^ 8). change CSTOPB with (2 ^ 6).
  change CSIZE with (Z.lor (2 ^ 4) (2 ^ 5)). change CS7 with (2 ^ 5).
  change CRTSCTS with (2 ^ 31). change CREAD with (2 ^ 7). change CLOCAL with (2 ^ 11).
  generalize (c_cflag tty). intros c.
  split; [tty_bits |]. split; [tty_bits |]. split; [tty_bits |]. split; [tty_bits |].
  split; [tty_bits |]. split; [tty_bits |].
  split.
  { intros i Hi Hn. cbn [In] in Hn.
    repeat first [ rewrite Z.land_spec | rewrite Z.lor_spec
                 | rewrite Z.lnot_spec by lia | rewrite Z.pow2_bits_eqb by lia ].
    repeat match goal with
           | |- context [?a =? i] => destruct (Z.eqb_spec a i); [exfalso; tauto |]
           end.
    cbn [negb andb orb]. rewrite ?andb_true_r, ?orb_false_r. reflexivity. }
  split; [reflexivity |]. split; [reflexivity |]. split; [reflexivity |].
  split.
  { unfold VMIN, VTIME. intros Hl. split; [| split].
    - rewrite list_lookup_insert_ne by lia. apply list_lookup_insert_eq. lia.
    - apply list_lookup_insert_eq. rewrite length_insert. lia.
    - intros k H1 H2. rewrite !list_lookup_insert_ne by lia. reflexivity. }
  unfold truthy. destruct (Z.eqb_spec tcsetattr_result 0); cbn [negb]; split; split;
    intros; try lia; try contradiction; try reflexivity.
Qed.

(** ** amouse.c: the command line, continued *)

(** One pass of the option loop, for an option other than -h. *)
Lemma parse_opts_loop_step (argv0 : string) (g : getopt_result) (rest : list getopt_result)
    (o0 : options.opts) (out0 : list (stream * text)) :
  opt g <> "h"%char ->
  exists o1,
    parse_opts_loop argv0 (g :: rest) o0 out0
    = parse_opts_loop argv0 rest o1
        (out0 ++ if known_option (opt g) then [] else [invalid_option_line])
    /\ options.mousepath o1
       = (if Ascii.eqb (opt g) "m" then strndup (optarg g) 4096 else options.mousepath o0)
    /\ options.serialpath o1
       = (if Ascii.eqb (opt g) "s" then strndup (optarg g) 4096 else options.serialpath o0)
    /\ options.immediate o1 = (if Ascii.eqb (opt g) "i" then 1 else options.immediate o0)
    /\ options.debug o1 = (if Ascii.eqb (opt g) "d" then 1 else options.debug o0).
Proof.
  intros Hh. destruct g as [c a]. cbn [opt optarg] in *. cbn [parse_opts_loop opt optarg].
  unfold known_option. cbn [existsb].
  destruct (Ascii.eqb_spec c "m") as [-> | Nm];
    [eexists; rewrite app_nil_r; repeat split |].
  destruct (Ascii.eqb_spec c "s") as [-> | Ns];
    [eexists; rewrite app_nil_r; repeat split |].
  destruct (Ascii.eqb_spec c "h") as [-> | _]; [contradiction |].
  destruct (Ascii.eqb_spec c "w") as [-> | Nw];
    [eexists; rewrite app_nil_r; repeat split |].
  destruct (Ascii.eqb_spec c "e") as [-> | Ne];
    [eexists; rewrite app_nil_r; repeat split |].
  destruct (Ascii.eqb_spec c "i") as [-> | Ni];
    [eexists; rewrite app_nil_r; repeat split |].
  destruct (Ascii.eqb_spec c "d") as [-> | Nd];
    [eexists; rewrite app_nil_r; repeat split |].
  eexists. repeat split.
Qed.

Lemma parse_opts_loop_help (argv0 : string) (g : getopt_result) (rest : list getopt_result)
    (o0 : options.opts) (out0 : list (stream * text)) :
  opt g = "h"%char ->
  parse_opts_loop argv0 (g :: rest) o0 out0 = Exit 0 (out0 ++ showhelp argv0).
Proof. intros H. cbn [parse_opts_loop]. rewrite H. reflexivity. Qed.


(** The stored paths and the two sticky flags after the loop. *)
Lemma parse_opts_loop_fields (argv0 : string) (gs : list getopt_result)
    (o0 o : options.opts) (out0 out : list (stream * text)) :
  parse_opts_loop argv0 gs o0 out0 = Return o out ->
  (Forall (fun g => opt g <> "m"%char) gs -> options.mousepath o = options.mousepath o0)
  /\ (Forall (fun g => opt g <> "s"%char) gs -> options.serialpath o = options.serialpath o0)
  /\ options.immediate o
     = (if existsb (fun g => Ascii.eqb (opt g) "i") gs then 1 else options.immediate o0)
  /\ options.debug o
     = (if existsb (fun g => Ascii.eqb (opt g) "d") gs then 1 else options.debug o0).
Proof.
  revert o0 out0. induction gs as [| g gs IH]; intros o0 out0 H.
  - cbn in H. injection H as <- <-. repeat split.
  - destruct (Ascii.eqb_spec (opt g) "h") as [Eh | Nh].
    + rewrite (parse_opts_loop_help _ _ _ _ _ Eh) in H. discriminate.
    + destruct (parse_opts_loop_step argv0 g gs o0 out0 Nh) as (o1 & E & M & S & I & D).
      rewrite E in H. apply IH in H. destruct H as (HM & HS & HI & HD).
      cbn [existsb]. split; [| split; [| split]].
      * intros F. apply Forall_cons in F. destruct F as [F1 F2].
        rewrite (HM F2), M. destruct (Ascii.eqb_spec (opt g) "m"); [contradiction | reflexivity].
      * intros F. apply Forall_cons in F. destruct F as [F1 F2].
        rewrite (HS F2), S. destruct (Ascii.eqb_spec (opt g) "s"); [contradiction | reflexivity].
      * rewrite HI, I. destruct (Ascii.eqb (opt g) "i"); cbn [orb]; [| reflexivity].
        now destruct (existsb (fun g => Ascii.eqb (opt g) "i") gs).
      * rewrite HD, D. destruct (Ascii.eqb (opt g) "d"); cbn [orb]; [| reflexivity].
        now destruct (existsb (fun g => Ascii.eqb (opt g) "d") gs).
Qed.

(** The loop over two stretches of options is the loop over the first,
    then over the second. *)
Lemma parse_opts_loop_app (argv0 : string) (pre post : list getopt_result)
    (o0 : options.opts) (out0 : list (stream * text)) :
  parse_opts_loop argv0 (pre ++ post) o0 out0
  = match parse_opts_loop argv0 pre o0 out0 with
    | Exit status out => Exit status out
    | Return o out => parse_opts_loop argv0 post o out
    end.
Proof.
  revert o0 out0. induction pre as [| g pre IH]; intros o0 out0; [reflexivity |].
  rewrite <- app_comm_cons. cbn [parse_opts_loop].
  repeat match goal with
         | |- context [if Ascii.eqb (opt g) ?c then _ else _] =>
             destruct (Ascii.eqb (opt g) c); [first [reflexivity | apply IH] |]
         end.
  apply IH.
Qed.



(** X13. Unlike -w and -e, the options -i and -d hold wherever they stand:
    after the option loop immediate is 1 exactly when a -i was among the
    options, and debug is 1 exactly when a -d was, given that both start at
    0 as calloc leaves them. *)
Theorem parse_opts_sticky_flags (argv0 : string) (gs : list getopt_result)
    (o : options.opts) (out : list (stream * text)) :
  parse_opts_loop argv0 gs options.calloc [] = Return o out ->
  (options.immediate o = 1 <-> exists g, In g gs /\ opt g = "i"%char)
  /\ (options.immediate o = 0 <-> Forall (fun g => opt g <> "i"%char) gs)
  /\ (options.debug o = 1 <-> exists g, In g gs /\ opt g = "d"%char)
  /\ (options.debug o = 0 <-> Forall (fun g => opt g <> "d"%char) gs).
Proof.
  intros H. apply parse_opts_loop_fields in H. destruct H as (_ & _ & HI & HD).
  cbn [options.calloc options.immediate options.debug] in HI, HD.
  assert (X : forall c, existsb (fun g => Ascii.eqb (opt g) c) gs = true
                        <-> exists g, In g gs /\ opt g = c).
  { intros c. rewrite existsb_exists. split; intros (g & Hin & E); exists g;
      (split; [exact Hin |]); now apply Ascii.eqb_eq. }
  assert (Y : forall c, existsb (fun g => Ascii.eqb (opt g) c) gs = false
                        <-> Forall (fun g => opt g <> c) gs).
  { intros c. rewrite Forall_forall. split.
    - intros E g Hin Hc. apply list_elem_of_In in Hin.
      assert (T : existsb (fun g => Ascii.eqb (opt g) c) gs = true)
        by (apply X; eauto).
      congruence.
    - intros F. destruct (existsb (fun g => Ascii.eqb (opt g) c) gs) eqn:T; [| reflexivity].
      apply X in T. destruct T as (g & Hin & Hc).
      apply list_elem_of_In in Hin. destruct (F g Hin Hc). }
  rewrite <- !X, <- !Y, HI, HD.
  destruct (existsb (fun g => Ascii.eqb (opt g) "i") gs),
           (existsb (fun g => Ascii.eqb (opt g) "d") gs);
    repeat split; intros; try reflexivity; try discriminate.
Qed.

Lemma parse_opts_sticky_flags_witness :
  parse_opts_loop "amouse"
    [mk_getopt "i" None; mk_getopt "m" (Some "/dev/input/event0"); mk_getopt "w" None]
    options.calloc []
  = Return (options.mk (Some "/dev/input/event0") None 0 1 1 0) []
  /\ exists g, In g [mk_getopt "i" None; mk_getopt "m" (Some "/dev/input/event0");
                     mk_getopt "w" None] /\ opt g = "i"%char.
Proof.
  split; [reflexivity |].
  apply (proj1 (proj1 (parse_opts_sticky_flags "amouse"
                         [mk_getopt "i" None; mk_getopt "m" (Some "/dev/input/event0");
                          mk_getopt "w" None]
                         (options.mk (Some "/dev/input/event0") None 0 1 1 0) []
                         eq_refl))).
  reflexivity.
Defined.

Lemma substring_length_le (n : nat) (s : string) :
  (String.length (String.substring 0 n s) <= n)%nat.
Proof.
  revert s. induction n as [| n IH]; intros [| c s]; cbn; try lia.
  specialize (IH s). lia.
Qed.

(** X14. The path kept for -m is the argument of the last -m on the command
    line, cut to its first 4096 characters, whatever options stand before
    and after it; the same holds for -s; and a path that no option names
    stays as it was. *)
Theorem parse_opts_last_path_wins (argv0 : string) (before after : list getopt_result)
    (g : getopt_result) (o0 o : options.opts) (out0 out : list (stream * text)) :
  parse_opts_loop argv0 (before ++ g :: after) o0 out0 = Return o out ->
  (opt g = "m"%char -> Forall (fun g' => opt g' <> "m"%char) after ->
     options.mousepath o = strndup (optarg g) 4096)
  /\ (opt g = "s"%char -> Forall (fun g' => opt g' <> "s"%char) after ->
        options.serialpath o = strndup (optarg g) 4096)
  /\ (Forall (fun g' => opt g' <> "m"%char) (before ++ g :: after) ->
        options.mousepath o = options.mousepath o0)
  /\ (Forall (fun g' => opt g' <> "s"%char) (before ++ g :: after) ->
        options.serialpath o = options.serialpath o0)
  /\ (forall p, strndup (optarg g) 4096 = Some p -> (String.length p <= 4096)%nat).
Proof.
  intros H.
  pose proof (parse_opts_loop_fields _ _ _ _ _ _ H) as (W1 & W2 & _).
  rewrite parse_opts_loop_app in H.
  destruct (parse_opts_loop argv0 before o0 out0) as [st out1 | o1 out1]; [discriminate |].
  destruct (Ascii.eqb_spec (opt g) "h") as [Eh | Nh].
  { rewrite (parse_opts_loop_help _ _ _ _ _ Eh) in H. discriminate. }
  destruct (parse_opts_loop_step argv0 g after o1 out1 Nh) as (o2 & E & M & S & _).
  rewrite E in H. apply parse_opts_loop_fields in H. destruct H as (HM & HS & _).
  split; [| split; [| split; [| split]]].
  - intros Em F. rewrite (HM F), M, Em. reflexivity.
  - intros Es F. rewrite (HS F), S, Es. reflexivity.
  - exact W1.
  - exact W2.
  - intros p. destruct (optarg g) as [a |]; [| discriminate].
    cbn [strndup]. intros [= <-]. apply substring_length_le.
Qed.

Lemma parse_opts_last_path_wins_witness :
  parse_opts_loop "amouse"
    ([mk_getopt "m" (Some "/dev/input/event0")]
       ++ mk_getopt "m" (Some "/dev/input/event1") :: [mk_getopt "d" None])
    options.calloc []
  = Return (options.mk (Some "/dev/input/event1") None 1 1 0 1) []
  /\ options.mousepath (options.mk (Some "/dev/input/event1") None 1 1 0 1)
     = strndup (Some "/dev/input/event1") 4096.
Proof.
  split; [reflexivity |].
  apply (proj1 (parse_opts_last_path_wins "amouse"
                  [mk_getopt "m" (Some "/dev/input/event0")] [mk_getopt "d" None]
                  (mk_getopt "m" (Some "/dev/input/event1")) options.calloc _ [] []
                  eq_refl)).
  - reflexivity.
  - repeat constructor. discriminate.
Defined.



(** ** amouse.c: the input device *)

(** X16. [open_usbinput] returns the descriptor exactly when open succeeded,
    libevdev accepted it and the device reports all six capabilities;
    otherwise it returns -1.  It asks for the exclusive grab exactly when
    it returns the descriptor and [exclusive] is set.  It closes the
    descriptor exactly when a capability is missing; when libevdev rejects
    the descriptor it returns -1 and leaves the descriptor open. *)
Theorem open_usbinput_outcomes (fd new_from_fd : Z)
    (has_rel has_x has_y has_left has_middle has_right : Z) (exclusive : Z) :
  let capable := has_rel <> 0 /\ has_x <> 0 /\ has_y <> 0
                 /\ has_left <> 0 /\ has_middle <> 0 /\ has_right <> 0 in
  let r := open_usbinput fd new_from_fd has_rel has_x has_y has_left has_middle has_right
             exclusive in
  (r.1 = fd \/ r.1 = -1)
  /\ (0 <= r.1 <-> 0 <= fd /\ 0 <= new_from_fd /\ capable)
  /\ (0 <= r.1 -> r.1 = fd)
  /\ (In Grab r.2 <-> 0 <= r.1 /\ exclusive <> 0)
  /\ (In Close r.2 <-> 0 <= fd /\ 0 <= new_from_fd /\ ~ capable)
  /\ (0 <= fd -> new_from_fd < 0 -> r = (-1, [Report (- new_from_fd)])).
Proof.
  cbv zeta. unfold open_usbinput.
  set (capable := has_rel <> 0 /\ has_x <> 0 /\ has_y <> 0
                  /\ has_left <> 0 /\ has_middle <> 0 /\ has_right <> 0).
  match goal with
  | |- context [if ?b then (if _ then _ else _) else _] =>
      assert (RC : b = true <-> capable)
        by (unfold capable, truthy;
            rewrite !andb_true_iff, !negb_true_iff, !Z.eqb_neq; tauto);
      generalize dependent b
  end.
  clearbody capable. intros b RC.
  destruct (Z.ltb_spec fd 0); [cbn; intuition lia |].
  destruct (Z.ltb_spec new_from_fd 0);
    [cbn; intuition (try lia; try discriminate) |].
  assert (D : b = false <-> ~ capable)
    by (destruct b; intuition (try discriminate; try congruence)).
  unfold truthy.
  destruct b; [destruct (Z.eqb_spec exclusive 0) |]; cbn;
    intuition (try lia; try discriminate; try congruence).
Qed.

(** ** Instances of the properties of the loop *)

(** X17 at a left-button press from the state a flush leaves: the pass
    sends 0x60 0 0 and is at rest again. *)
Lemma run_keeps_at_rest_witness :
  let m0 := mouse.mk 0 [0x40; 0x00; 0x00; 0x00] 0 0 0 (-1) 0 0 0 0 in
  let m1 := mouse.mk 0 [0x40; 0x00; 0x00; 0x00] 0 0 0 (-1) 1 0 0 0 in
  let o := options.mk (Some "/dev/input/event0") (Some "/dev/ttyS0") 1 1 0 0 in
  let press := mk_input (Some (Z.lor TIOCM_CTS TIOCM_DSR)) []
                 (Some (ev.mk EV_KEY BTN_LEFT 1)) (mk_timespec 9 0) (mk_timespec 9 0) in
  at_rest m0
  /\ run 5 4 4 22000000 30000000 o m0 (mk_timespec 10 0) [press]
     = Some (m1, mk_timespec 9 22000000, [Packet [0x60; 0x00; 0x00]])
  /\ at_rest m1
  /\ Forall well_framed [Packet [0x60; 0x00; 0x00]].
Proof.
  cbv zeta.
  assert (R : at_rest (mouse.mk 0 [0x40; 0x00; 0x00; 0x00] 0 0 0 (-1) 0 0 0 0))
    by (unfold at_rest; cbn; repeat split; lia).
  split; [exact R |]. split; [reflexivity |].
  exact (run_keeps_at_rest 5 4 4 22000000 30000000
           (options.mk (Some "/dev/input/event0") (Some "/dev/ttyS0") 1 1 0 0)
           [mk_input (Some (Z.lor TIOCM_CTS TIOCM_DSR)) []
              (Some (ev.mk EV_KEY BTN_LEFT 1)) (mk_timespec 9 0) (mk_timespec 9 0)]
           _ _ (mk_timespec 10 0) (mk_timespec 9 22000000) _ R eq_refl).
Defined.

(** X18 at a wheel tick after the deadline with the wheel option off: three
    bytes, without the tick. *)
Lemma basic_protocol_without_wheel_witness :
  let m0 := mouse.mk 0 [0x40; 0x00; 0x00; 0x00] 0 0 0 (-1) 0 0 0 0 in
  let o := options.mk (Some "/dev/input/event0") (Some "/dev/ttyS0") 0 1 0 0 in
  let tick := mk_input (Some (Z.lor TIOCM_CTS TIOCM_DSR)) []
                (Some (ev.mk EV_REL REL_WHEEL 1)) (mk_timespec 11 0) (mk_timespec 11 0) in
  run 5 4 4 22000000 30000000 o m0 (mk_timespec 10 0) [tick]
  = Some (m0, mk_timespec 11 22000000, [Packet [0x40; 0x00; 0x00]])
  /\ mouse.mmb m0 = 0
  /\ Forall (fun t => match t with
                      | Packet bytes => (length bytes <= 3)%nat
                      | Ident bytes => bytes = [0x4D]
                      end) [Packet [0x40; 0x00; 0x00]].
Proof.
  cbv zeta. split; [reflexivity |].
  exact (basic_protocol_without_wheel 5 4 4 22000000 30000000
           (options.mk (Some "/dev/input/event0") (Some "/dev/ttyS0") 0 1 0 0)
           [mk_input (Some (Z.lor TIOCM_CTS TIOCM_DSR)) []
              (Some (ev.mk EV_REL REL_WHEEL 1)) (mk_timespec 11 0) (mk_timespec 11 0)]
           (mouse.mk 0 [0x40; 0x00; 0x00; 0x00] 0 0 0 (-1) 0 0 0 0) _
           (mk_timespec 10 0) (mk_timespec 11 22000000) _ eq_refl eq_refl eq_refl).
Defined.

(** X19 at a right-button press before the deadline. *)
Lemma button_event_flushes_at_once_witness :
  let m0 := mouse.mk 0 [0x40; 0x00; 0x00; 0x00] 0 0 0 (-1) 0 0 0 0 in
  exists m' target' bytes,
    process_event 5 4 4 22000000 30000000 1 m0 (mk_timespec 10 0)
      (ev.mk EV_KEY BTN_RIGHT 1) (mk_timespec 9 0) (mk_timespec 9 0)
    = (m', target', Some bytes)
    /\ length bytes = 3%nat
    /\ mouse.lmb m' = 0 /\ mouse.rmb m' = 1 /\ mouse.mmb m' = 0.
Proof.
  exact (button_event_flushes_at_once 5 4 4 22000000 30000000 1
           (mouse.mk 0 [0x40; 0x00; 0x00; 0x00] 0 0 0 (-1) 0 0 0 0) (mk_timespec 10 0)
           (ev.mk EV_KEY BTN_RIGHT 1) (mk_timespec 9 0) (mk_timespec 9 0)
           eq_refl (or_intror eq_refl) eq_refl eq_refl).
Defined.

(** X20 at a horizontal-wheel event (an axis the program does not know)
    before the deadline: an update is pending, nothing is sent. *)
Lemma motion_waits_for_deadline_witness :
  let m0 := mouse.mk 0 [0x40; 0x00; 0x00; 0x00] 0 0 0 (-1) 0 0 0 0 in
  let e := ev.mk EV_REL 0x06 1 in
  (mouse.update (handle_event 1 m0 e) = 2 \/ mouse.update (handle_event 1 m0 e) = 3)
  /\ process_event 5 4 4 22000000 30000000 1 m0 (mk_timespec 10 0) e
       (mk_timespec 9 0) (mk_timespec 9 0)
     = (handle_event 1 m0 e, mk_timespec 10 0, None).
Proof.
  cbv zeta.
  pose proof (motion_waits_for_deadline 5 4 4 22000000 30000000 1
                (mouse.mk 0 [0x40; 0x00; 0x00; 0x00] 0 0 0 (-1) 0 0 0 0) (mk_timespec 10 0)
                (ev.mk EV_REL 0x06 1) (mk_timespec 9 0) (mk_timespec 9 0)
                eq_refl eq_refl) as (U & _ & N & _).
  split; [exact U |]. apply N. vm_compute. discriminate.
Defined.

(** X21 at a synchronisation report (EV_SYN, type 0) after the deadline. *)
Lemma ignored_event_is_silent_witness :
  let m0 := mouse.mk 0 [0x40; 0x00; 0x00; 0x00] 7 0 0 (-1) 0 0 0 0 in
  let o := options.mk (Some "/dev/input/event0") (Some "/dev/ttyS0") 1 1 0 0 in
  let syn := mk_input (Some (Z.lor TIOCM_CTS TIOCM_DSR)) []
               (Some (ev.mk 0 0 0)) (mk_timespec 11 0) (mk_timespec 11 0) in
  loop_iteration 5 4 4 22000000 30000000 o m0 (mk_timespec 10 0) syn
  = Some (m0, mk_timespec 10 0, []).
Proof.
  cbv zeta.
  apply (ignored_event_is_silent 5 4 4 22000000 30000000
           (options.mk (Some "/dev/input/event0") (Some "/dev/ttyS0") 1 1 0 0)
           (mouse.mk 0 [0x40; 0x00; 0x00; 0x00] 7 0 0 (-1) 0 0 0 0) (mk_timespec 10 0)
           (mk_input (Some (Z.lor TIOCM_CTS TIOCM_DSR)) []
              (Some (ev.mk 0 0 0)) (mk_timespec 11 0) (mk_timespec 11 0))
           (ev.mk 0 0 0));
    [reflexivity | discriminate | intros H; discriminate H | reflexivity | discriminate].
Defined.

(** X22 at x = 5, y = -3. *)
Lemma encode_motion_round_trip_witness :
  exists b0 b1 b2 b3,
    mouse.state (encode 5 4 4 (mouse.mk 0 [0x40; 0x00; 0x00; 0x00] 5 (-3) 0 2 1 0 0 1))
    = [b0; b1; b2; b3]
    /\ (64 * Z.land b0 3 + b1 + 128) mod 256 - 128 = 5
    /\ (64 * (Z.land b0 12 / 4) + b2 + 128) mod 256 - 128 = -3.
Proof.
  exact (encode_motion_round_trip 5 4 4
           (mouse.mk 0 [0x40; 0x00; 0x00; 0x00] 5 (-3) 0 2 1 0 0 1)
           eq_refl ltac:(lia) ltac:(lia) ltac:(cbn; lia) ltac:(cbn; lia)).
Defined.

(** X23 at a wheel accumulator of 15: the nibble reads +1, not -15. *)
Lemma encode_wheel_nibble_signed_witness :
  exists b3 : Z,
    mouse.state (encode 5 4 4 (mouse.mk 0 [0x40; 0x00; 0x00; 0x00] 0 0 15 3 0 0 0 0))
      !! 3%nat = Some b3
    /\ (Z.land b3 0x0f + 8) mod 16 - 8 = 1.
Proof.
  destruct (encode_wheel_nibble_signed 5 4 4
              (mouse.mk 0 [0x40; 0x00; 0x00; 0x00] 0 0 15 3 0 0 0 0)
              eq_refl ltac:(lia) ltac:(cbn; lia)) as (b3 & E & _ & H & _).
  exists b3. split; [exact E |]. apply H. cbn. lia.
Defined.

(** X24 with -i and the host lines low throughout. *)
Lemma immediate_mode_never_identifies_witness :
  let m0 := mouse.mk 0 [0x40; 0x00; 0x00; 0x00] 0 0 0 (-1) 0 0 0 0 in
  let o := options.mk (Some "/dev/input/event0") (Some "/dev/ttyS0") 1 1 1 0 in
  let idle := mk_input (Some 0) [] None (mk_timespec 9 0) (mk_timespec 9 0) in
  exists m' target' tr,
    run 5 4 4 22000000 30000000 o m0 (mk_timespec 10 0) [idle; idle]
    = Some (m', target', tr)
    /\ Forall (fun t => exists bytes, t = Packet bytes) tr.
Proof.
  cbv zeta.
  apply (immediate_mode_never_identifies 5 4 4 22000000 30000000
           (options.mk (Some "/dev/input/event0") (Some "/dev/ttyS0") 1 1 1 0)).
  cbn. discriminate.
Defined.

(** X25 one nanosecond after the 3-byte interval. *)
Lemma deadline_spacing_witness :
  let m0 := mouse.mk 0 [0x40; 0x00; 0x00; 0x00] 0 0 0 (-1) 0 0 0 0 in
  let m2 := mouse.mk 0 [0x40; 0x00; 0x00; 0x00] 3 0 0 2 0 0 0 0 in
  normalized (mk_timespec 9 0) /\ normalized (mk_timespec 9 22000001)
  /\ flush_due m2 (timespec_diff (next_target 22000000 30000000 m0 (mk_timespec 9 0))
                     (mk_timespec 9 22000001)) = true
  /\ flush_due m2 (timespec_diff (next_target 22000000 30000000 m0 (mk_timespec 9 0))
                     (mk_timespec 9 22000000)) = false.
Proof.
  cbv zeta.
  assert (N1 : normalized (mk_timespec 9 0)) by (unfold normalized; cbn; lia).
  assert (N2 : normalized (mk_timespec 9 22000001)) by (unfold normalized; cbn; lia).
  split; [exact N1 |]. split; [exact N2 |]. split; [| reflexivity].
  apply (deadline_spacing 22000000 30000000
           (mouse.mk 0 [0x40; 0x00; 0x00; 0x00] 0 0 0 (-1) 0 0 0 0) _ _ _
           ltac:(lia) ltac:(lia) N1 ltac:(cbn; lia) N2).
  left. cbn. split; lia.
Defined.
